(** * slang-test-gen: a shallow embedding of the test generator

    Source: extras/slang-test-gen/slang-test-gen.py.

    Python [str] values are modelled as Rocq [string]s (sequences of bytes,
    the UTF-8 encoding of the text); whitespace and digits are those of
    [str.isspace] and [str.isdigit].  Dataclass fields hold values of the
    types their annotations declare: a document is one in which every
    variant body is a mapping and every key that is present holds a value
    of the type of its field.  A Python [dict] whose iteration order
    is observable is an association list in insertion order. *)

From Stdlib Require Import String Ascii ZArith List Bool Lia DecimalString.
From stdpp Require Import base option list strings gmap.
Import ListNotations.

Local Open Scope string_scope.
Local Open Scope list_scope.

(** ** Python primitives used by the generator *)

Module Py.

(** Exceptions that the modelled code can raise. *)
Inductive exn : Type :=
| KeyError (key : string)
| OSError (msg : string).

(** [str(e)]: a [KeyError] prints the repr of its key. *)
Definition exn_str (e : exn) : string :=
  match e with
  | KeyError k => "'" +:+ k +:+ "'"
  | OSError m => m
  end.

Inductive result (A : Type) : Type :=
| Ok (a : A)
| Raise (e : exn).
Arguments Ok {A} a.
Arguments Raise {A} e.

Definition bind {A B} (r : result A) (k : A -> result B) : result B :=
  match r with
  | Ok a => k a
  | Raise e => Raise e
  end.

(** [d[key]] on a mapping whose entry for [key] is [o]. *)
Definition getitem {A} (key : string) (o : option A) : result A :=
  match o with
  | Some a => Ok a
  | None => Raise (KeyError key)
  end.

(** [d.get(key, dflt)]. *)
Definition get {A} (o : option A) (dflt : A) : A :=
  match o with
  | Some a => a
  | None => dflt
  end.

(** [[f(x) for x in l]] where [f] may raise: the first exception wins. *)
Fixpoint list_comp {A B} (f : A -> result B) (l : list A) : result (list B) :=
  match l with
  | [] => Ok []
  | x :: l' =>
      bind (f x) (fun y => bind (list_comp f l') (fun ys => Ok (y :: ys)))
  end.

Definition nl : string := String (ascii_of_nat 10) "".

(** Truthiness of a [str] and of an [Optional[str]]. *)
Definition truthy (s : string) : bool :=
  match s with
  | EmptyString => false
  | String _ _ => true
  end.

Definition truthy_opt (o : option string) : bool :=
  match o with
  | Some s => truthy s
  | None => false
  end.

(** [pat in s] for strings. *)
Fixpoint contains (pat s : string) : bool :=
  String.prefix pat s ||
  match s with
  | EmptyString => false
  | String _ s' => contains pat s'
  end.

(** [s.replace(old, new)]: leftmost non-overlapping occurrences.  [skip]
    counts the characters of a matched occurrence still to be dropped. *)
Fixpoint replace_from (old new : string) (skip : nat) (s : string) : string :=
  match s with
  | EmptyString => EmptyString
  | String c s' =>
      match skip with
      | S k => replace_from old new k s'
      | O =>
          if String.prefix old s
          then new +:+ replace_from old new (String.length old - 1) s'
          else String c (replace_from old new 0 s')
      end
  end.

(** With an empty [old], Python inserts [new] before every character and
    at the end. *)
Fixpoint interleave (new s : string) : string :=
  match s with
  | EmptyString => new
  | String c s' => new +:+ String c (interleave new s')
  end.

Definition replace (old new s : string) : string :=
  match old with
  | EmptyString => interleave new s
  | String _ _ => replace_from old new 0 s
  end.

(** [sep.join(l)]. *)
Definition join (sep : string) (l : list string) : string :=
  String.concat sep l.

(** [s.split('\n')]. *)
Fixpoint split_nl (s : string) : list string :=
  match s with
  | EmptyString => [EmptyString]
  | String c s' =>
      if Ascii.eqb c (ascii_of_nat 10) then EmptyString :: split_nl s'
      else match split_nl s' with
           | h :: t => String c h :: t
           | [] => [String c EmptyString]
           end
  end.

(** *** Characters

    A [str] is kept as the bytes of its UTF-8 encoding.  Substring search,
    replacement, splitting and joining act on those bytes exactly as on the
    characters; [rstrip], [strip], [isdigit] and [len] see characters, and
    read them off the bytes. *)

Definition byte (c : ascii) : N := N_of_ascii c.

Definition is_continuation (c : ascii) : bool :=
  ((128 <=? byte c) && (byte c <? 192))%N.

(** The code point of the first character of [s] and the number of bytes
    that encode it; [None] where no character starts. *)
Definition decode_one (s : string) : option (N * nat) :=
  match s with
  | EmptyString => None
  | String c0 s1 =>
      let b0 := byte c0 in
      if (b0 <? 128)%N then Some (b0, 1)
      else if (b0 <? 192)%N then None
      else if (b0 <? 224)%N then
        match s1 with
        | String c1 _ =>
            if is_continuation c1
            then Some (((b0 - 192) * 64 + (byte c1 - 128))%N, 2)
            else None
        | EmptyString => None
        end
      else if (b0 <? 240)%N then
        match s1 with
        | String c1 (String c2 _) =>
            if is_continuation c1 && is_continuation c2
            then Some ((((b0 - 224) * 64 + (byte c1 - 128)) * 64 + (byte c2 - 128))%N, 3)
            else None
        | _ => None
        end
      else
        match s1 with
        | String c1 (String c2 (String c3 _)) =>
            if is_continuation c1 && is_continuation c2 && is_continuation c3
            then Some (((((b0 - 240) * 64 + (byte c1 - 128)) * 64
                         + (byte c2 - 128)) * 64 + (byte c3 - 128))%N, 4)
            else None
        | _ => None
        end
  end.

(** Every character of [s] satisfies [P]; [skip] counts the bytes of the
    current character still to be passed over. *)
Fixpoint all_chars_from (P : N -> bool) (skip : nat) (s : string) : bool :=
  match s with
  | EmptyString => Nat.eqb skip 0
  | String _ s' =>
      match skip with
      | S k => all_chars_from P k s'
      | O =>
          match decode_one s with
          | Some (point, size) => P point && all_chars_from P (size - 1) s'
          | None => false
          end
      end
  end.

Definition all_chars (P : N -> bool) (s : string) : bool := all_chars_from P 0 s.

(** The characters for which [str.isspace] holds. *)
Definition whitespace_points : list N :=
  [ 9; 10; 11; 12; 13; 28; 29; 30; 31; 32; 133; 160; 5760;
    8192; 8193; 8194; 8195; 8196; 8197; 8198; 8199; 8200; 8201; 8202;
    8232; 8233; 8239; 8287; 12288 ]%N.

Definition is_space_point (point : N) : bool :=
  existsb (N.eqb point) whitespace_points.

(** [s.isspace()] for a non-empty [s]. *)
Definition all_space (s : string) : bool := all_chars is_space_point s.

(** [s.rstrip()]: cut at the first place from which only whitespace
    follows. *)
Fixpoint rstrip (s : string) : string :=
  match s with
  | EmptyString => EmptyString
  | String c s' => if all_space s then EmptyString else String c (rstrip s')
  end.

(** The characters for which [str.isdigit] holds (Unicode 14.0, as in
    CPython 3.11), as ranges of code points. *)
Definition digit_ranges : list (N * N) :=
  [ (48, 57); (178, 179); (185, 185); (1632, 1641); (1776, 1785); (1984, 1993);
    (2406, 2415); (2534, 2543); (2662, 2671); (2790, 2799); (2918, 2927);
    (3046, 3055); (3174, 3183); (3302, 3311); (3430, 3439); (3558, 3567);
    (3664, 3673); (3792, 3801); (3872, 3881); (4160, 4169); (4240, 4249);
    (4969, 4977); (6112, 6121); (6160, 6169); (6470, 6479); (6608, 6618);
    (6784, 6793); (6800, 6809); (6992, 7001); (7088, 7097); (7232, 7241);
    (7248, 7257); (8304, 8304); (8308, 8313); (8320, 8329); (9312, 9320);
    (9332, 9340); (9352, 9360); (9450, 9450); (9461, 9469); (9471, 9471);
    (10102, 10110); (10112, 10120); (10122, 10130); (42528, 42537);
    (43216, 43225); (43264, 43273); (43472, 43481); (43504, 43513);
    (43600, 43609); (44016, 44025); (65296, 65305); (66720, 66729);
    (68160, 68163); (68912, 68921); (69216, 69224); (69714, 69722);
    (69734, 69743); (69872, 69881); (69942, 69951); (70096, 70105);
    (70384, 70393); (70736, 70745); (70864, 70873); (71248, 71257);
    (71360, 71369); (71472, 71481); (71904, 71913); (72016, 72025);
    (72784, 72793); (73040, 73049); (73120, 73129); (92768, 92777);
    (92864, 92873); (93008, 93017); (120782, 120831); (123200, 123209);
    (123632, 123641); (125264, 125273); (127232, 127242); (130032, 130041) ]%N.

Definition is_digit_point (point : N) : bool :=
  existsb (fun r => ((fst r <=? point) && (point <=? snd r))%N) digit_ranges.

(** [s.isdigit()]: non-empty and only digits. *)
Definition isdigit (s : string) : bool := truthy s && all_chars is_digit_point s.

(** [len(s)]: the bytes that start a character. *)
Fixpoint len (s : string) : nat :=
  match s with
  | EmptyString => 0
  | String c s' => if is_continuation c then len s' else S (len s')
  end.

(** [s.lstrip()]. *)
Fixpoint lstrip_from (skip : nat) (s : string) : string :=
  match s with
  | EmptyString => EmptyString
  | String _ s' =>
      match skip with
      | S k => lstrip_from k s'
      | O =>
          match decode_one s with
          | Some (point, size) =>
              if is_space_point point then lstrip_from (size - 1) s' else s
          | None => s
          end
      end
  end.

Definition lstrip (s : string) : string := lstrip_from 0 s.

(** [s.strip()]. *)
Definition strip (s : string) : string := rstrip (lstrip s).

(** [str(n)] for an [int]. *)
Definition str_of_int (z : Z) : string :=
  NilZero.string_of_int (Z.to_int z).

(** Values a YAML scalar can take in a template-variable mapping. *)
Inductive value : Type :=
| VStr (s : string)
| VInt (z : Z)
| VBool (b : bool)
| VNone.

(** [str(v)]. *)
Definition str (v : value) : string :=
  match v with
  | VStr s => s
  | VInt z => str_of_int z
  | VBool true => "True"
  | VBool false => "False"
  | VNone => "None"
  end.

(** Insertion-ordered dictionaries with string keys. *)
Definition dict (V : Type) : Type := list (string * V).

(** [d[k] = v]: an existing key keeps its position, a new key goes last. *)
Fixpoint dict_set {V} (k : string) (v : V) (d : dict V) : dict V :=
  match d with
  | [] => [(k, v)]
  | (k', v') :: d' =>
      if String.eqb k k' then (k', v) :: d' else (k', v') :: dict_set k v d'
  end.

(** [{**a, **b}]. *)
Definition dict_merge {V} (a b : dict V) : dict V :=
  fold_left (fun d kv => dict_set (fst kv) (snd kv) d) b a.

End Py.

Import Py.

(** ** Configuration model *)

(** [class TestType(Enum)] *)
Inductive TestType : Type :=
| SIMPLE
| COMPARE_COMPUTE
| INTERPRET
| CROSS_COMPILE
| COMPILE_FAIL
| CUSTOM.

(** [TestType.__members__], in declaration order. *)
Definition TestType_members : list (string * TestType) :=
  [ ("SIMPLE", SIMPLE); ("COMPARE_COMPUTE", COMPARE_COMPUTE);
    ("INTERPRET", INTERPRET); ("CROSS_COMPILE", CROSS_COMPILE);
    ("COMPILE_FAIL", COMPILE_FAIL); ("CUSTOM", CUSTOM) ].

(** [TestType[s]] when [s in TestType.__members__], [None] when it is not. *)
Fixpoint members_lookup (s : string) (ms : list (string * TestType)) : option TestType :=
  match ms with
  | [] => None
  | (n, t) :: ms' => if String.eqb s n then Some t else members_lookup s ms'
  end.

(** A [disable_reason]: a GitHub issue number or a free-text reason. *)
Inductive reason : Type :=
| RInt (n : Z)
| RStr (s : string).

Definition reason_truthy (r : option reason) : bool :=
  match r with
  | None => false
  | Some (RInt n) => negb (Z.eqb n 0)
  | Some (RStr s) => truthy s
  end.

Definition reason_str (r : reason) : string :=
  match r with
  | RInt n => str_of_int n
  | RStr s => s
  end.

(** [isinstance(r, int) or str(r).isdigit()] *)
Definition reason_is_issue (r : reason) : bool :=
  match r with
  | RInt _ => true
  | RStr s => isdigit s
  end.

Module TestInput.

Record t : Type := mk {
  name : string;
  input_type : string;
  parameters : string;
  declaration : option string
}.

(** The mapping handed to [from_dict]: for each key the method reads, the
    entry's value when the key is present. *)
Record data : Type := mk_data {
  d_name : option string;
  d_type : option string;
  d_parameters : option string;
  d_declaration : option string
}.

Definition from_dict (d : data) : result t :=
  bind (getitem "name" (d_name d)) (fun name_ =>
  bind (getitem "type" (d_type d)) (fun type_ =>
  Ok {| name := name_;
        input_type := type_;
        parameters := get (d_parameters d) "";
        declaration := d_declaration d |})).

End TestInput.

Module TestDirective.

Record t : Type := mk {
  test_type : TestType;
  flags : string;
  filecheck : option string;
  enabled : bool;
  disable_reason : option reason
}.

Record data : Type := mk_data {
  d_type : option string;
  d_flags : option string;
  d_filecheck : option string;
  d_enabled : option bool;
  d_disable_reason : option reason
}.

Definition from_dict (d : data) : t :=
  let test_type_str := get (d_type d) "SIMPLE" in
  let test_type_ :=
    match members_lookup test_type_str TestType_members with
    | Some ty => ty
    | None => CUSTOM
    end in
  let enabled_ := get (d_enabled d) true in
  let disable_reason_ := d_disable_reason d in
  {| test_type := test_type_;
     flags := get (d_flags d) "";
     filecheck := d_filecheck d;
     enabled := enabled_;
     disable_reason := disable_reason_ |}.

(** Generate the [//TEST:...] line. *)
Definition to_test_line (self : t) : string :=
  let prefix := if enabled self then "" else "DISABLE_" in
  match test_type self with
  | SIMPLE =>
      let filecheck_part :=
        if truthy_opt (filecheck self)
        then "(filecheck=" +:+ get (filecheck self) "" +:+ ")" else "" in
      "//" +:+ prefix +:+ "TEST:SIMPLE" +:+ filecheck_part +:+ ": " +:+ flags self
  | COMPARE_COMPUTE =>
      let filecheck_part :=
        if truthy_opt (filecheck self)
        then "(filecheck-buffer=" +:+ get (filecheck self) "" +:+ ")" else "" in
      "//" +:+ prefix +:+ "TEST(compute):COMPARE_COMPUTE" +:+ filecheck_part
           +:+ ": " +:+ flags self
  | INTERPRET =>
      let filecheck_part :=
        if truthy_opt (filecheck self)
        then "(filecheck=" +:+ get (filecheck self) "" +:+ ")" else "" in
      "//" +:+ prefix +:+ "TEST:INTERPRET" +:+ filecheck_part +:+ ": " +:+ flags self
  | COMPILE_FAIL => "//" +:+ prefix +:+ "TEST:COMPILE_FAIL: " +:+ flags self
  | CROSS_COMPILE => "//" +:+ prefix +:+ "TEST:CROSS_COMPILE: " +:+ flags self
  | CUSTOM => "//" +:+ prefix +:+ flags self
  end.

End TestDirective.

Module TestVariant.

Record t : Type := mk {
  name : string;
  description : string;
  directives : list TestDirective.t;
  inputs : list TestInput.t;
  template_vars : dict value;
  shader_code : option string;
  additional_header : option string;
  filecheck_patterns : dict (list string)
}.

Record data : Type := mk_data {
  d_description : option string;
  d_directives : option (list TestDirective.data);
  d_inputs : option (list TestInput.data);
  d_template_vars : option (dict value);
  d_shader_code : option string;
  d_additional_header : option string;
  d_filecheck_patterns : option (dict (list string))
}.

Definition from_dict (name_ : string) (d : data) : result t :=
  let directives_ := map TestDirective.from_dict (get (d_directives d) []) in
  bind (list_comp TestInput.from_dict (get (d_inputs d) [])) (fun inputs_ =>
  let filecheck_patterns_ := get (d_filecheck_patterns d) [] in
  Ok {| name := name_;
        description := get (d_description d) "";
        directives := directives_;
        inputs := inputs_;
        template_vars := get (d_template_vars d) [];
        shader_code := d_shader_code d;
        additional_header := d_additional_header d;
        filecheck_patterns := filecheck_patterns_ |}).

End TestVariant.

Module TestConfig.

Record t : Type := mk {
  name : string;
  description : string;
  shader_template : string;
  output_pattern : string;
  variants : list TestVariant.t;
  global_inputs : list TestInput.t;
  global_template_vars : dict value;
  generation_comment : option string;
  default_filecheck_patterns : dict (list string);
  default_directives : list TestDirective.t;
  output_dir : option string
}.

(** The [test_config] mapping of the document. *)
Record config_data : Type := mk_config_data {
  d_name : option string;
  d_description : option string;
  d_shader_template : option string;
  d_output_pattern : option string;
  d_global_inputs : option (list TestInput.data);
  d_global_template_vars : option (dict value);
  d_generation_comment : option string;
  d_default_filecheck_patterns : option (dict (list string));
  d_default_directives : option (list TestDirective.data);
  d_output_dir : option string
}.

(** What [yaml.safe_load] returned: the two top-level keys that are read.
    [variants] is a mapping, kept in document order. *)
Record data : Type := mk_data {
  d_test_config : option config_data;
  d_variants : option (list (string * TestVariant.data))
}.

(** [from_yaml], from the loaded document on. *)
Definition from_yaml (d : data) : result t :=
  bind (getitem "test_config" (d_test_config d)) (fun config =>
  let default_directives_ :=
    match d_default_directives config with
    | Some ds => map TestDirective.from_dict ds
    | None => []
    end in
  bind (list_comp (fun nv => TestVariant.from_dict (fst nv) (snd nv))
                  (get (d_variants d) [])) (fun variants_ =>
  bind (list_comp TestInput.from_dict (get (d_global_inputs config) []))
       (fun global_inputs_ =>
  bind (getitem "name" (d_name config)) (fun name_ =>
  bind (getitem "shader_template" (d_shader_template config)) (fun shader_template_ =>
  Ok {| name := name_;
        description := get (d_description config) "";
        shader_template := shader_template_;
        output_pattern := get (d_output_pattern config) "{name}-{variant_name}.slang";
        variants := variants_;
        global_inputs := global_inputs_;
        global_template_vars := get (d_global_template_vars config) [];
        generation_comment := d_generation_comment config;
        default_filecheck_patterns := get (d_default_filecheck_patterns config) [];
        default_directives := default_directives_;
        output_dir := d_output_dir config |}))))).

End TestConfig.

(** How [with open(path, 'w') as f: f.write(content)] fails: [open] raises
    and the file is as it was, or the file was opened, which creates or
    empties it, and holds [remains] when [write] or [close] raises. *)
Inductive write_failure : Type :=
| OpenFailed (e : exn)
| WriteFailed (e : exn) (remains : string).

(** ** The generator *)

Module TestGenerator.

Section Generator.

(** [pathlib.Path] and the part of the file system the generator looks
    at.  [path_exists] and [read_text] resolve a relative path against
    the current working directory, as the operating system does. *)
Context {Path : Type} `{Countable Path}.
Variable path_of_str : string -> Path.
Variable is_absolute : Path -> bool.
Variable parent : Path -> Path.
Variable joinpath : Path -> Path -> Path.
Variable path_exists : Path -> result bool.
Variable read_text : Path -> result string.

Record t : Type := mk {
  config : TestConfig.t;
  config_path : Path;
  shader_template : string
}.

(** Load shader template from file or use inline code. *)
Definition _load_shader_template (config_ : TestConfig.t) (config_path_ : Path)
    (shader_file : option Path) : result string :=
  match shader_file with
  | Some f => read_text f
  | None =>
      let template_path := path_of_str (TestConfig.shader_template config_) in
      bind (if is_absolute template_path then path_exists template_path
            else Ok false) (fun abs_found =>
      if abs_found then read_text template_path
      else
        let config_dir := parent config_path_ in
        let relative_path := joinpath config_dir template_path in
        bind (path_exists relative_path) (fun rel_found =>
        if rel_found then read_text relative_path
        else
          bind (path_exists template_path) (fun cwd_found =>
          if cwd_found then read_text template_path
          else Ok (TestConfig.shader_template config_))))
  end.

(** [__init__] *)
Definition init (config_ : TestConfig.t) (config_path_ : Path)
    (shader_file : option Path) : result t :=
  bind (_load_shader_template config_ config_path_ shader_file) (fun tmpl =>
  Ok {| config := config_; config_path := config_path_; shader_template := tmpl |}).

Definition placeholder (key : string) : string := "{{" +:+ key +:+ "}}".

(** Apply template variable substitution. *)
Definition _apply_template_vars (text : string) (vars : dict value) : string :=
  fold_left (fun result_ kv => replace (placeholder (fst kv)) (str (snd kv)) result_)
            vars text.

(** Check if shader already contains TEST_INPUT directives. *)
Definition _shader_has_test_inputs (shader_code : string) : bool :=
  contains "//TEST_INPUT:" shader_code.

(** The generation notice of the header. *)
Definition notice_lines (self : t) : list string :=
  if truthy_opt (TestConfig.generation_comment (config self))
  then [ "// THIS IS A GENERATED FILE. DO NOT EDIT!";
         "// " +:+ get (TestConfig.generation_comment (config self)) "";
         "//" ]
  else [].

(** The test description of the header. *)
Definition description_lines (self : t) (variant : TestVariant.t) : list string :=
  [ "// Test: " +:+ TestConfig.name (config self) +:+ " - " +:+ TestVariant.name variant ]
  ++ (if truthy (TestVariant.description variant)
      then [ "// " +:+ TestVariant.description variant ] else [])
  ++ [ "//" ].

(** If variant has directives, use those; otherwise use defaults. *)
Definition header_directives (self : t) (variant : TestVariant.t)
    : list TestDirective.t :=
  match TestVariant.directives variant with
  | _ :: _ => TestVariant.directives variant
  | [] => TestConfig.default_directives (config self)
  end.

(** The lines one directive adds: its test line and, for a disabled
    directive with a reason, a comment. *)
Definition directive_lines (directive : TestDirective.t) : list string :=
  [ TestDirective.to_test_line directive ]
  ++ (if negb (TestDirective.enabled directive)
         && reason_truthy (TestDirective.disable_reason directive)
      then match TestDirective.disable_reason directive with
           | Some r =>
               if reason_is_issue r
               then [ "// Test disabled, see https://github.com/shader-slang/slang/issues/"
                        +:+ reason_str r ]
               else [ "// Test disabled: " +:+ reason_str r ]
           | None => []
           end
      else []).

(** [self.config.global_inputs + variant.inputs] *)
Definition all_inputs (self : t) (variant : TestVariant.t) : list TestInput.t :=
  TestConfig.global_inputs (config self) ++ TestVariant.inputs variant.

(** The lines one input adds: its metadata line and its declaration. *)
Definition input_lines (test_input : TestInput.t) : list string :=
  [ "//TEST_INPUT: " +:+ TestInput.input_type test_input +:+ "("
      +:+ TestInput.parameters test_input +:+ "):name " +:+ TestInput.name test_input ]
  ++ (if truthy_opt (TestInput.declaration test_input)
      then [ get (TestInput.declaration test_input) "" ] else []).

(** Add test inputs only if shader doesn't already have them. *)
Definition input_block (self : t) (variant : TestVariant.t) : list string :=
  if negb (_shader_has_test_inputs (shader_template self))
  then flat_map input_lines (all_inputs self variant)
       ++ (match all_inputs self variant with
           | _ :: _ => [ "" ]
           | [] => []
           end)
  else [].

Definition additional_header_lines (variant : TestVariant.t) : list string :=
  if truthy_opt (TestVariant.additional_header variant)
  then [ get (TestVariant.additional_header variant) ""; "" ]
  else [].

(** The list [lines] that [_generate_header] builds. *)
Definition header_lines (self : t) (variant : TestVariant.t) : list string :=
  notice_lines self
  ++ description_lines self variant
  ++ flat_map directive_lines (header_directives self variant)
  ++ [ "" ]
  ++ input_block self variant
  ++ additional_header_lines variant.

(** Generate test file header. *)
Definition _generate_header (self : t) (variant : TestVariant.t) : string :=
  join nl (header_lines self variant).

Definition pattern_line (pattern_name pattern : string) : string :=
  if contains ":" pattern then "// " +:+ pattern
  else "// " +:+ pattern_name +:+ ": " +:+ pattern.

(** Generate FileCheck patterns. *)
Definition _generate_filecheck_patterns (self : t) (variant : TestVariant.t) : string :=
  let merged_patterns :=
    dict_merge (TestConfig.default_filecheck_patterns (config self))
               (TestVariant.filecheck_patterns variant) in
  match merged_patterns with
  | [] => ""
  | _ :: _ =>
      join nl (flat_map (fun np => map (pattern_line (fst np)) (snd np) ++ [ "" ])
                        merged_patterns)
  end.

(** The shader a variant is generated from: variant shader code or
    template. *)
Definition variant_shader (self : t) (variant : TestVariant.t) : string :=
  if truthy_opt (TestVariant.shader_code variant)
  then get (TestVariant.shader_code variant) ""
  else shader_template self.

(** The text [generate_test_file] writes. *)
Definition test_content (self : t) (variant : TestVariant.t) : string :=
  let template_vars :=
    dict_merge (TestConfig.global_template_vars (config self))
               (TestVariant.template_vars variant) in
  let header := _generate_header self variant in
  let shader_code := variant_shader self variant in
  let shader_code := _apply_template_vars shader_code template_vars in
  let filecheck := _generate_filecheck_patterns self variant in
  let test_content := header +:+ shader_code in
  let test_content :=
    if truthy filecheck then test_content +:+ nl +:+ nl +:+ filecheck
    else test_content in
  let lines := split_nl test_content in
  let lines := map rstrip lines in
  join nl lines.

(** *** Writing files *)

(** The output side of the world: the files written so far and what was
    printed. *)
Record World : Type := mk_world {
  disk : gmap Path string;
  stdout : list string
}.

Definition IO (A : Type) : Type := World -> result A * World.

Definition print (line : string) (w : World) : World :=
  {| disk := disk w; stdout := stdout w ++ [ line ] |}.

(** [str.format(name=..., variant_name=...)] on the output pattern, the
    error (if any) of creating a directory, and the way (if any) in which
    opening and writing a file fails. *)
Variable format_pattern : string -> string -> string -> result string.
Variable mkdir_error : Path -> option exn.
Variable write_error : gmap Path string -> Path -> string -> option write_failure.

(** [with open(output_path, 'w') as f: f.write(content)] *)
Definition write_file (output_path : Path) (content : string) : IO unit :=
  fun w =>
    match write_error (disk w) output_path content with
    | Some (OpenFailed e) => (Raise e, w)
    | Some (WriteFailed e remains) =>
        (Raise e, {| disk := <[ output_path := remains ]> (disk w);
                     stdout := stdout w |})
    | None => (Ok tt, {| disk := <[ output_path := content ]> (disk w);
                         stdout := stdout w |})
    end.

(** Generate a single test file. *)
Definition generate_test_file (self : t) (variant : TestVariant.t)
    (output_path : Path) : IO unit :=
  write_file output_path (test_content self variant).

(** The [for variant in self.config.variants] loop. *)
Fixpoint generate_variants (self : t) (output_dir : Path)
    (vs : list TestVariant.t) : IO unit :=
  fun w =>
    match vs with
    | [] => (Ok tt, w)
    | variant :: vs' =>
        match format_pattern (TestConfig.output_pattern (config self))
                             (TestConfig.name (config self))
                             (TestVariant.name variant) with
        | Raise e => (Raise e, w)
        | Ok filename =>
            let output_path := joinpath output_dir (path_of_str filename) in
            match generate_test_file self variant output_path w with
            | (Ok _, w') =>
                generate_variants self output_dir vs'
                  (print ("  ✓ Generated: " +:+ filename) w')
            | (Raise e, w') =>
                (Raise e,
                 print ("  ✗ Failed to generate " +:+ filename +:+ ": " +:+ exn_str e) w')
            end
        end
    end.

(** Generate all test files. *)
Definition generate_all_tests (self : t) (output_dir : Path) : IO unit :=
  fun w =>
    let w := print ("Generating tests for: " +:+ TestConfig.name (config self)) w in
    match mkdir_error output_dir with
    | Some e => (Raise e, w)
    | None => generate_variants self output_dir (TestConfig.variants (config self)) w
    end.

End Generator.

End TestGenerator.


(** ** Validation and the command line *)

(** How [main] ends: [sys.exit(code)], an exception that nothing catches,
    or a normal return. *)
Inductive outcome : Type :=
| Exit (code : Z)
| Uncaught (e : exn)
| Returned.

Section CommandLine.

Context {Path : Type} `{Countable Path}.
Variable path_of_str : string -> Path.
Variable is_absolute : Path -> bool.
Variable parent : Path -> Path.
Variable joinpath : Path -> Path -> Path.
Variable path_exists : Path -> result bool.
Variable read_text : Path -> result string.
Variable format_pattern : string -> string -> string -> result string.
Variable mkdir_error : Path -> option exn.
Variable write_error : gmap Path string -> Path -> string -> option write_failure.

(** [str(path)]; opening a file and [yaml.safe_load] on it; the components
    of [path.resolve()] below the root, innermost first, and the path with
    given components; [Path.cwd()]. *)
Variable path_str : Path -> string.
Variable load_yaml : Path -> result TestConfig.data.
Variable resolve_parts : Path -> list string.
Variable path_of_parts : list string -> Path.
Variable cwd : Path.

Local Abbreviation World := (@TestGenerator.World Path _ _).
Local Abbreviation IO := (@TestGenerator.IO Path _ _).

Definition io_ret {A} (a : A) : IO A := fun w => (Ok a, w).

Definition io_bind {A B} (m : IO A) (k : A -> IO B) : IO B :=
  fun w =>
    match m w with
    | (Ok a, w') => k a w'
    | (Raise e, w') => (Raise e, w')
    end.

(** A computation that prints nothing. *)
Definition io_lift {A} (r : result A) : IO A := fun w => (r, w).

Definition io_print (line : string) : IO unit :=
  fun w => (Ok tt, TestGenerator.print line w).

(** [TestConfig.from_yaml(yaml_path)], from the path on. *)
Definition load_config (yaml_path : Path) : result TestConfig.t :=
  bind (load_yaml yaml_path) TestConfig.from_yaml.

(** The probes of the shader template in [validate_config] and the line
    each prints. *)
Definition validate_shader_path (config_path : Path) (shader_template : string)
    : IO unit :=
  let shader_path := path_of_str shader_template in
  let config_dir := parent config_path in
  let relative_path := joinpath config_dir shader_path in
  io_bind (io_lift (if is_absolute shader_path then path_exists shader_path
                    else Ok false)) (fun abs_found =>
  if abs_found
  then io_print ("  ✓ Shader template found: " +:+ path_str shader_path)
  else
    io_bind (io_lift (path_exists relative_path)) (fun rel_found =>
    if rel_found
    then io_print ("  ✓ Shader template found: " +:+ path_str relative_path)
    else
      io_bind (io_lift (path_exists shader_path)) (fun cwd_found =>
      if cwd_found
      then io_print ("  ✓ Shader template found: " +:+ path_str shader_path)
      else io_print "  ℹ Shader template: external file or inline code"))).

(** The [try] block of [validate_config]. *)
Definition validate_try (config_path : Path) : IO bool :=
  io_bind (io_lift (load_config config_path)) (fun config =>
  io_bind (io_print "  ✓ Configuration loaded successfully") (fun _ =>
  io_bind (io_print ("  ✓ Test name: " +:+ TestConfig.name config)) (fun _ =>
  io_bind (io_print ("  ✓ Variants: "
                     +:+ str_of_int (Z.of_nat (length (TestConfig.variants config)))))
          (fun _ =>
  let shader_template := strip (TestConfig.shader_template config) in
  io_bind
    (if negb (contains nl shader_template) && (len shader_template <? 256)%nat
     then validate_shader_path config_path shader_template
     else io_print "  ℹ Shader template is inline code")
    (fun _ => io_ret true))))).

(** Validate configuration file.  The traceback that the [except] branch
    writes goes to the standard error stream, which is not part of the
    world. *)
Definition validate_config (config_path : Path) (w : World) : bool * World :=
  let w := TestGenerator.print ("Validating configuration: " +:+ path_str config_path) w in
  match validate_try config_path w with
  | (Ok b, w') => (b, w')
  | (Raise e, w') =>
      (false, TestGenerator.print ("  ✗ Validation failed: " +:+ exn_str e) w')
  end.

(** The [while] loop of [find_slang_root]: [current] is the path with the
    components [parts], its parent the one with their tail, and the loop
    ends at the root, which has none. *)
Fixpoint find_slang_root_from (parts : list string) : result Path :=
  match parts with
  | [] => Ok cwd
  | _ :: up =>
      let current := path_of_parts parts in
      bind (path_exists (joinpath current (path_of_str ".git"))) (fun found =>
      if found then Ok current else find_slang_root_from up)
  end.

(** Find the Slang repository root by looking for .git directory. *)
Definition find_slang_root (start_path : Path) : result Path :=
  find_slang_root_from (resolve_parts start_path).

(** The parsed command line. *)
Record Args : Type := mk_args {
  args_config : Path;
  args_output_dir : Path;
  args_shader : option Path;
  args_validate_only : bool
}.

(** What [main] does once the configuration is validated and generation
    is asked for. *)
Definition generate (args : Args) : IO unit :=
  io_bind (io_lift (load_config (args_config args))) (fun config =>
  io_bind (io_lift
             (if truthy_opt (TestConfig.output_dir config)
              then bind (find_slang_root (args_config args)) (fun slang_root =>
                   Ok (joinpath slang_root
                                (path_of_str (get (TestConfig.output_dir config) ""))))
              else Ok (args_output_dir args))) (fun output_dir =>
  io_bind (io_lift (TestGenerator.init path_of_str is_absolute parent joinpath
                      path_exists read_text config (args_config args) (args_shader args)))
          (fun generator =>
  io_bind (TestGenerator.generate_all_tests path_of_str joinpath format_pattern
             mkdir_error write_error generator output_dir) (fun _ =>
  io_print (nl +:+ "✓ Test generation complete!"))))).

(** [main], from the parsed arguments on. *)
Definition main (args : Args) (w : World) : outcome * World :=
  let (valid, w) := validate_config (args_config args) w in
  if negb valid
  then (Exit 1, TestGenerator.print (nl +:+ "✗ Configuration validation failed!") w)
  else if args_validate_only args
  then (Exit 0, TestGenerator.print (nl +:+ "✓ Validation successful!") w)
  else match generate args w with
       | (Ok _, w') => (Returned, w')
       | (Raise e, w') => (Uncaught e, w')
       end.

End CommandLine.

(** ** Statements about the loaded document *)

(** The names of [TestType], as the specification lists them. *)
Definition recognized_kinds : list string :=
  [ "SIMPLE"; "COMPARE_COMPUTE"; "INTERPRET"; "CROSS_COMPILE"; "COMPILE_FAIL"; "CUSTOM" ].

(** [e] is an input entry of the document [d]: an element of
    [test_config.global_inputs] or of the [inputs] of one of [variants]. *)
Definition input_entry_of (d : TestConfig.data) (e : TestInput.data) : Prop :=
  (exists c l, TestConfig.d_test_config d = Some c
               /\ TestConfig.d_global_inputs c = Some l /\ In e l)
  \/ (exists vs n v l, TestConfig.d_variants d = Some vs /\ In (n, v) vs
                       /\ TestVariant.d_inputs v = Some l /\ In e l).

(** [variant] with its [shader_code] field set to [code]. *)
Definition with_shader_code (code : option string) (variant : TestVariant.t)
    : TestVariant.t :=
  {| TestVariant.name := TestVariant.name variant;
     TestVariant.description := TestVariant.description variant;
     TestVariant.directives := TestVariant.directives variant;
     TestVariant.inputs := TestVariant.inputs variant;
     TestVariant.template_vars := TestVariant.template_vars variant;
     TestVariant.shader_code := code;
     TestVariant.additional_header := TestVariant.additional_header variant;
     TestVariant.filecheck_patterns := TestVariant.filecheck_patterns variant |}.

(** [config] with its [default_directives] field set to [ds]. *)
Definition with_default_directives (ds : list TestDirective.t) (config : TestConfig.t)
    : TestConfig.t :=
  {| TestConfig.name := TestConfig.name config;
     TestConfig.description := TestConfig.description config;
     TestConfig.shader_template := TestConfig.shader_template config;
     TestConfig.output_pattern := TestConfig.output_pattern config;
     TestConfig.variants := TestConfig.variants config;
     TestConfig.global_inputs := TestConfig.global_inputs config;
     TestConfig.global_template_vars := TestConfig.global_template_vars config;
     TestConfig.generation_comment := TestConfig.generation_comment config;
     TestConfig.default_filecheck_patterns := TestConfig.default_filecheck_patterns config;
     TestConfig.default_directives := ds;
     TestConfig.output_dir := TestConfig.output_dir config |}.

(** [self] with the [default_directives] of its configuration set to [ds]. *)
Definition generator_with_default_directives {Path : Type}
    (ds : list TestDirective.t) (self : @TestGenerator.t Path) : @TestGenerator.t Path :=
  {| TestGenerator.config := with_default_directives ds (TestGenerator.config self);
     TestGenerator.config_path := TestGenerator.config_path self;
     TestGenerator.shader_template := TestGenerator.shader_template self |}.

(** The list of lines [l] ends with a non-empty line. *)
Definition ends_with_text (l : list string) : Prop :=
  exists ls x, l = ls ++ [ x ] /\ truthy x = true.


(** No key of [vars] has its placeholder in [text]. *)
Definition placeholders_absent (vars : dict value) (text : string) : bool :=
  forallb (fun kv => negb (contains (TestGenerator.placeholder (fst kv)) text)) vars.

(** ** Example documents *)

Module Examples.

Definition buf : TestInput.t :=
  {| TestInput.name := "buf";
     TestInput.input_type := "ubuffer";
     TestInput.parameters := "data=[0], stride=4";
     TestInput.declaration := None |}.

Definition tex : TestInput.t :=
  {| TestInput.name := "tex";
     TestInput.input_type := "Texture2D";
     TestInput.parameters := "size=4, content=zero";
     TestInput.declaration := Some "Texture2D<float4> tex;" |}.

Definition simple_slang : TestDirective.t :=
  {| TestDirective.test_type := SIMPLE;
     TestDirective.flags := "-target spirv";
     TestDirective.filecheck := Some "CHECK";
     TestDirective.enabled := true;
     TestDirective.disable_reason := None |}.

Definition disabled_compute : TestDirective.t :=
  {| TestDirective.test_type := COMPARE_COMPUTE;
     TestDirective.flags := "-vk -output-using-type";
     TestDirective.filecheck := None;
     TestDirective.enabled := false;
     TestDirective.disable_reason := Some (RInt 1234) |}.

(** A variant that overrides nothing. *)
Definition plain : TestVariant.t :=
  {| TestVariant.name := "plain";
     TestVariant.description := "";
     TestVariant.directives := [];
     TestVariant.inputs := [];
     TestVariant.template_vars := [];
     TestVariant.shader_code := None;
     TestVariant.additional_header := None;
     TestVariant.filecheck_patterns := [] |}.

(** A variant with directives and an input of its own. *)
Definition textured : TestVariant.t :=
  {| TestVariant.name := "textured";
     TestVariant.description := "samples a texture";
     TestVariant.directives := [ disabled_compute ];
     TestVariant.inputs := [ tex ];
     TestVariant.template_vars := [ ("TYPE", VStr "float4") ];
     TestVariant.shader_code := None;
     TestVariant.additional_header := None;
     TestVariant.filecheck_patterns := [] |}.

(** A variant whose own shader code already declares its input. *)
Definition own_shader : TestVariant.t :=
  {| TestVariant.name := "own";
     TestVariant.description := "";
     TestVariant.directives := [];
     TestVariant.inputs := [];
     TestVariant.template_vars := [];
     TestVariant.shader_code :=
       Some ("//TEST_INPUT: ubuffer(data=[0], stride=4):name buf" +:+ nl
             +:+ "RWStructuredBuffer<uint> buf;" +:+ nl
             +:+ "void main() { buf[0] = 1; }");
     TestVariant.additional_header := None;
     TestVariant.filecheck_patterns := [] |}.

Definition config : TestConfig.t :=
  {| TestConfig.name := "load";
     TestConfig.description := "";
     TestConfig.shader_template := "void main() { {{TYPE}} v; }";
     TestConfig.output_pattern := "{name}-{variant_name}.slang";
     TestConfig.variants := [ plain; textured; own_shader ];
     TestConfig.global_inputs := [ buf ];
     TestConfig.global_template_vars := [ ("TYPE", VStr "int") ];
     TestConfig.generation_comment := None;
     TestConfig.default_filecheck_patterns := [];
     TestConfig.default_directives := [ simple_slang ];
     TestConfig.output_dir := None |}.

(** The generator for [config] with the inline template resolved. *)
Definition generator : @TestGenerator.t string :=
  {| TestGenerator.config := config;
     TestGenerator.config_path := "/tests/load.yaml";
     TestGenerator.shader_template := "void main() { {{TYPE}} v; }" |}.

(** A document with no inputs at all. *)
Definition bare_config : TestConfig.t :=
  {| TestConfig.name := "bare";
     TestConfig.description := "";
     TestConfig.shader_template := "void main() {}";
     TestConfig.output_pattern := "{name}-{variant_name}.slang";
     TestConfig.variants := [ plain ];
     TestConfig.global_inputs := [];
     TestConfig.global_template_vars := [];
     TestConfig.generation_comment := None;
     TestConfig.default_filecheck_patterns := [];
     TestConfig.default_directives := [ simple_slang ];
     TestConfig.output_dir := None |}.

Definition bare_generator : @TestGenerator.t string :=
  {| TestGenerator.config := bare_config;
     TestGenerator.config_path := "/tests/bare.yaml";
     TestGenerator.shader_template := "void main() {}" |}.

(** A file system with a shader next to the configuration file and another
    one of the same name in the working directory, and paths as strings. *)
Definition fs_is_absolute (p : string) : bool := String.prefix "/" p.

Fixpoint dirname (p : string) : option string :=
  match p with
  | EmptyString => None
  | String c p' =>
      match dirname p' with
      | Some d => Some (String c d)
      | None => if Ascii.eqb c "/" then Some EmptyString else None
      end
  end.

Definition fs_parent (p : string) : string :=
  match dirname p with
  | Some EmptyString => "/"
  | Some d => d
  | None => "."
  end.

Definition fs_joinpath (a b : string) : string :=
  if fs_is_absolute b then b else a +:+ "/" +:+ b.

Definition fs_exists (p : string) : result bool :=
  Ok (String.eqb p "/tests/shader.slang" || String.eqb p "shader.slang").

Definition fs_read_text (p : string) : result string :=
  if String.eqb p "/tests/shader.slang" then Ok "// next to the configuration"
  else if String.eqb p "shader.slang" then Ok "// in the working directory"
  else Raise (OSError "No such file or directory").

Definition file_config : TestConfig.t :=
  {| TestConfig.name := "load";
     TestConfig.description := "";
     TestConfig.shader_template := "shader.slang";
     TestConfig.output_pattern := "{name}-{variant_name}.slang";
     TestConfig.variants := [ plain ];
     TestConfig.global_inputs := [];
     TestConfig.global_template_vars := [];
     TestConfig.generation_comment := None;
     TestConfig.default_filecheck_patterns := [];
     TestConfig.default_directives := [ simple_slang ];
     TestConfig.output_dir := None |}.

(** What [str.format] makes of the default output pattern. *)
Definition format_default (pattern name variant_name : string) : result string :=
  Ok (name +:+ "-" +:+ variant_name +:+ ".slang").

(** An output directory in which one file cannot be written. *)
Definition read_only_textured (files : gmap string string) (p content : string)
    : option write_failure :=
  if String.eqb p "out/load-textured.slang"
  then Some (OpenFailed (OSError "Permission denied"))
  else None.


Definition empty_world : @TestGenerator.World string _ _ :=
  {| TestGenerator.disk := ∅; TestGenerator.stdout := [] |}.

(** A document with an input entry that has no [type]. *)
Definition untyped_entry : TestInput.data :=
  {| TestInput.d_name := Some "buf";
     TestInput.d_type := None;
     TestInput.d_parameters := Some "data=[0], stride=4";
     TestInput.d_declaration := None |}.

Definition untyped_document : TestConfig.data :=
  {| TestConfig.d_test_config :=
       Some {| TestConfig.d_name := Some "load";
               TestConfig.d_description := None;
               TestConfig.d_shader_template := Some "void main() {}";
               TestConfig.d_output_pattern := None;
               TestConfig.d_global_inputs := None;
               TestConfig.d_global_template_vars := None;
               TestConfig.d_generation_comment := None;
               TestConfig.d_default_filecheck_patterns := None;
               TestConfig.d_default_directives := None;
               TestConfig.d_output_dir := None |};
     TestConfig.d_variants :=
       Some [ ("plain",
               {| TestVariant.d_description := None;
                  TestVariant.d_directives := None;
                  TestVariant.d_inputs := Some [ untyped_entry ];
                  TestVariant.d_template_vars := None;
                  TestVariant.d_shader_code := None;
                  TestVariant.d_additional_header := None;
                  TestVariant.d_filecheck_patterns := None |}) ] |}.

(** A variant whose [shader_code] is present and empty. *)
Definition empty_code : TestVariant.t := with_shader_code (Some "") textured.

End Examples.

(** ** Further statements *)

(** [TestType.name] of a member. *)
Definition TestType_name (ty : TestType) : string :=
  match ty with
  | SIMPLE => "SIMPLE"
  | COMPARE_COMPUTE => "COMPARE_COMPUTE"
  | INTERPRET => "INTERPRET"
  | CROSS_COMPILE => "CROSS_COMPILE"
  | COMPILE_FAIL => "COMPILE_FAIL"
  | CUSTOM => "CUSTOM"
  end.

(** [directive] with its [enabled] field set to [b]. *)
Definition with_enabled (b : bool) (directive : TestDirective.t) : TestDirective.t :=
  {| TestDirective.test_type := TestDirective.test_type directive;
     TestDirective.flags := TestDirective.flags directive;
     TestDirective.filecheck := TestDirective.filecheck directive;
     TestDirective.enabled := b;
     TestDirective.disable_reason := TestDirective.disable_reason directive |}.

(** [s] ends with a whitespace character: one of its non-empty suffixes is
    whitespace only. *)
Fixpoint ends_in_space (s : string) : bool :=
  match s with
  | EmptyString => false
  | String _ s' => all_space s || ends_in_space s'
  end.

(** [s] has no line feed. *)
Fixpoint no_newline (s : string) : bool :=
  match s with
  | EmptyString => true
  | String c s' => negb (Ascii.eqb c (ascii_of_nat 10)) && no_newline s'
  end.

(** [s] has no opening brace. *)
Fixpoint no_open_brace (s : string) : bool :=
  match s with
  | EmptyString => true
  | String c s' => negb (Ascii.eqb c "{") && no_open_brace s'
  end.

(** [d.get(k)]: the value of the first entry for [k]. *)
Fixpoint dict_lookup {V} (k : string) (d : dict V) : option V :=
  match d with
  | [] => None
  | (k', v) :: d' => if String.eqb k k' then Some v else dict_lookup k d'
  end.

(** [k in d] *)
Definition dict_mem {V} (k : string) (d : dict V) : bool :=
  match dict_lookup k d with
  | Some _ => true
  | None => false
  end.

(** The entry [kv] with its value replaced by the one [b] has for its key,
    if any. *)
Definition override {V} (b : dict V) (kv : string * V) : string * V :=
  (fst kv, match dict_lookup (fst kv) b with
           | Some v => v
           | None => snd kv
           end).

(** The disk [files] after writing each [(path, content)] of [writes], in
    order. *)
Definition write_all {Path : Type} `{Countable Path}
    (writes : list (Path * string)) (files : gmap Path string) : gmap Path string :=
  fold_left (fun d pc => <[ fst pc := snd pc ]> d) writes files.

(** [args] with [--output-dir] set to [d]. *)
Definition with_output_dir {Path : Type} (d : Path) (args : @Args Path) : @Args Path :=
  {| args_config := args_config args;
     args_output_dir := d;
     args_shader := args_shader args;
     args_validate_only := args_validate_only args |}.

(** A piece of a shader text: literal text, or the placeholder of a key. *)
Inductive piece : Type :=
| Text (text : string)
| Var (key : string).







(** An input entry has the two keys [from_dict] subscripts. *)
Definition input_loadable (e : TestInput.data) : bool :=
  match TestInput.d_name e, TestInput.d_type e with
  | Some _, Some _ => true
  | _, _ => false
  end.

(** A document has [test_config] with [name] and [shader_template], and
    every input entry, global or of a variant, has [name] and [type]. *)
Definition loadable (d : TestConfig.data) : bool :=
  match TestConfig.d_test_config d with
  | None => false
  | Some config =>
      forallb (fun nv => forallb input_loadable (get (TestVariant.d_inputs (snd nv)) []))
              (get (TestConfig.d_variants d) [])
      && forallb input_loadable (get (TestConfig.d_global_inputs config) [])
      && match TestConfig.d_name config, TestConfig.d_shader_template config with
         | Some _, Some _ => true
         | _, _ => false
         end
  end.

Module MoreExamples.

Definition buf_entry : TestInput.data :=
  {| TestInput.d_name := Some "buf";
     TestInput.d_type := Some "ubuffer";
     TestInput.d_parameters := Some "data=[0], stride=4";
     TestInput.d_declaration := None |}.

Definition variant_entry (inputs : option (list TestInput.data)) : TestVariant.data :=
  {| TestVariant.d_description := None;
     TestVariant.d_directives := None;
     TestVariant.d_inputs := inputs;
     TestVariant.d_template_vars := None;
     TestVariant.d_shader_code := None;
     TestVariant.d_additional_header := None;
     TestVariant.d_filecheck_patterns := None |}.

(** A document that loads, with two variants. *)
Definition document : TestConfig.data :=
  {| TestConfig.d_test_config :=
       Some {| TestConfig.d_name := Some "load";
               TestConfig.d_description := None;
               TestConfig.d_shader_template := Some "void main() {}";
               TestConfig.d_output_pattern := None;
               TestConfig.d_global_inputs := Some [ buf_entry ];
               TestConfig.d_global_template_vars := None;
               TestConfig.d_generation_comment := None;
               TestConfig.d_default_filecheck_patterns := None;
               TestConfig.d_default_directives := None;
               TestConfig.d_output_dir := None |};
     TestConfig.d_variants :=
       Some [ ("second", variant_entry None); ("first", variant_entry (Some [ buf_entry ])) ] |}.

(** A disk on which every write goes through. *)
Definition writable (files : gmap string string) (p content : string)
    : option write_failure :=
  None.

(** [str.format] that knows no variant called [own]. *)
Definition format_but_own (pattern name variant_name : string) : result string :=
  if String.eqb variant_name "own" then Raise (KeyError "variant")
  else Ok (name +:+ "-" +:+ variant_name +:+ ".slang").

(** A document whose shader template is inline code of three lines and
    that names its output directory. *)
Definition inline_document : TestConfig.data :=
  {| TestConfig.d_test_config :=
       Some {| TestConfig.d_name := Some "inline";
               TestConfig.d_description := None;
               TestConfig.d_shader_template :=
                 Some ("void main()" +:+ nl +:+ "{" +:+ nl +:+ "}");
               TestConfig.d_output_pattern := None;
               TestConfig.d_global_inputs := None;
               TestConfig.d_global_template_vars := None;
               TestConfig.d_generation_comment := None;
               TestConfig.d_default_filecheck_patterns := None;
               TestConfig.d_default_directives := None;
               TestConfig.d_output_dir := Some "tests/generated" |};
     TestConfig.d_variants := Some [ ("only", variant_entry None) ] |}.

(** The configuration [inline_document] loads to. *)
Definition inline_config : TestConfig.t :=
  match TestConfig.from_yaml inline_document with
  | Ok config => config
  | Raise _ => Examples.config
  end.

(** The two configuration files that exist. *)
Definition load_yaml (p : string) : result TestConfig.data :=
  if String.eqb p "/repo/tests/load.yaml" then Ok document
  else if String.eqb p "/repo/tests/inline.yaml" then Ok inline_document
  else Raise (OSError "No such file or directory").

Definition resolve_parts (p : string) : list string := [ "load.yaml"; "tests"; "repo" ].

Definition path_of_parts (parts : list string) : string :=
  "/" +:+ join "/" (rev parts).

(** A repository checked out at [/repo]. *)
Definition repo_exists (p : string) : result bool := Ok (String.eqb p "/repo/.git").

(** A file system on which every probe fails. *)
Definition probe_fails (p : string) : result bool := Raise (OSError "File name too long").

Definition args_for (config_path : string) (validate_only : bool) : @Args string :=
  {| args_config := config_path;
     args_output_dir := ".";
     args_shader := None;
     args_validate_only := validate_only |}.

(** Inline shader code of one long line. *)
Fixpoint repeat_string (n : nat) (s : string) : string :=
  match n with
  | O => EmptyString
  | S n' => s +:+ repeat_string n' s
  end.

Definition long_inline_template : string :=
  "void main() {" +:+ repeat_string 30 " v = v + v;" +:+ " }".

Definition long_inline_config : TestConfig.t :=
  {| TestConfig.name := "long";
     TestConfig.description := "";
     TestConfig.shader_template := long_inline_template;
     TestConfig.output_pattern := "{name}-{variant_name}.slang";
     TestConfig.variants := [ Examples.plain ];
     TestConfig.global_inputs := [];
     TestConfig.global_template_vars := [];
     TestConfig.generation_comment := None;
     TestConfig.default_filecheck_patterns := [];
     TestConfig.default_directives := [ Examples.simple_slang ];
     TestConfig.output_dir := None |}.

(** Some component of the path, between slashes, has more than 255 bytes;
    [n] is the length of the component being read. *)
Fixpoint component_too_long (n : nat) (p : string) : bool :=
  match p with
  | EmptyString => (255 <? n)%nat
  | String c p' =>
      if Ascii.eqb c "/" then (255 <? n)%nat || component_too_long 0 p'
      else component_too_long (S n) p'
  end.

(** An empty file system: no path exists, and the status of a path with a
    component that is too long cannot be read. *)
Definition empty_fs_exists (p : string) : result bool :=
  if component_too_long 0 p then Raise (OSError "[Errno 36] File name too long")
  else Ok false.

End MoreExamples.

(** ** Properties of the loader *)

Lemma members_lookup_none (s : string) (ms : list (string * TestType)) :
  ~ In s (map fst ms) -> members_lookup s ms = None.
Proof.
  induction ms as [| [n ty] ms IH]; simpl; intros Hnot.
  - reflexivity.
  - destruct (String.eqb s n) eqn:E.
    + apply String.eqb_eq in E. exfalso. apply Hnot. left. symmetry. exact E.
    + apply IH. intros Hin. apply Hnot. right. exact Hin.
Qed.

(** C8. A directive whose [type] string is none of the six names of
    [TestType] is accepted: [from_dict] returns a directive (it cannot raise),
    of type [CUSTOM], with the other fields read as usual. *)
Theorem from_dict_unrecognized_kind_is_custom (d : TestDirective.data) (s : string) :
  TestDirective.d_type d = Some s ->
  ~ In s recognized_kinds ->
  TestDirective.from_dict d =
    {| TestDirective.test_type := CUSTOM;
       TestDirective.flags := get (TestDirective.d_flags d) "";
       TestDirective.filecheck := TestDirective.d_filecheck d;
       TestDirective.enabled := get (TestDirective.d_enabled d) true;
       TestDirective.disable_reason := TestDirective.d_disable_reason d |}.
Proof.
  intros Hty Hnot. unfold TestDirective.from_dict. rewrite Hty. cbn [get].
  rewrite (members_lookup_none s TestType_members Hnot). reflexivity.
Qed.

Lemma from_dict_unrecognized_kind_witness :
  TestDirective.test_type
    (TestDirective.from_dict
       {| TestDirective.d_type := Some "compare_compute";
          TestDirective.d_flags := Some "-vk";
          TestDirective.d_filecheck := None;
          TestDirective.d_enabled := None;
          TestDirective.d_disable_reason := None |}) = CUSTOM.
Proof.
  rewrite (from_dict_unrecognized_kind_is_custom _ "compare_compute").
  - reflexivity.
  - reflexivity.
  - unfold recognized_kinds. simpl. intros Hin.
    repeat (destruct Hin as [Hin | Hin]; [ discriminate Hin | ]). exact Hin.
Defined.

Lemma list_comp_raise {A B} (f : A -> result B) (l : list A) (x : A) :
  In x l -> (exists e, f x = Raise e) -> exists e, list_comp f l = Raise e.
Proof.
  intros Hin Hx. induction l as [| a l IH]; simpl in *.
  - contradiction.
  - destruct (f a) as [b | e] eqn:Ea; simpl.
    + destruct Hin as [-> | Hin].
      * destruct Hx as [e He]. congruence.
      * destruct (IH Hin) as [e He]. rewrite He. simpl. eauto.
    + eauto.
Qed.

Lemma input_from_dict_without_type (e : TestInput.data) :
  TestInput.d_type e = None -> exists x, TestInput.from_dict e = Raise x.
Proof.
  intros Hty. unfold TestInput.from_dict. rewrite Hty.
  destruct (TestInput.d_name e); simpl; eauto.
Qed.

(** C10. Loading a document raises as soon as one input entry, global or of
    a variant, has no [type] key.  On an entry that has a [name], the
    exception is [KeyError('type')]; an entry with [name] and [type] alone
    loads, with [parameters] the empty string and no [declaration]. *)
Theorem from_yaml_input_type_required (d : TestConfig.data) (e : TestInput.data) :
  input_entry_of d e ->
  TestInput.d_type e = None ->
  (exists x, TestConfig.from_yaml d = Raise x)
  /\ (forall n, TestInput.d_name e = Some n ->
                TestInput.from_dict e = Raise (KeyError "type"))
  /\ (forall n ty,
        TestInput.from_dict
          {| TestInput.d_name := Some n; TestInput.d_type := Some ty;
             TestInput.d_parameters := None; TestInput.d_declaration := None |}
        = Ok {| TestInput.name := n; TestInput.input_type := ty;
                TestInput.parameters := ""; TestInput.declaration := None |}).
Proof.
  intros Hentry Hty. split; [ | split ].
  - unfold TestConfig.from_yaml.
    destruct (TestConfig.d_test_config d) as [c |] eqn:Ec; simpl; [ | eauto ].
    destruct Hentry as [(c' & l & Hc & Hl & Hin) | (vs & n & v & l & Hvs & Hv & Hl & Hin)].
    + assert (c' = c) by congruence. subst c'.
      destruct (list_comp _ (get (TestConfig.d_variants d) [])) as [vars | x];
        simpl; [ | eauto ].
      rewrite Hl. cbn [get].
      destruct (list_comp_raise TestInput.from_dict l e Hin
                  (input_from_dict_without_type e Hty)) as [x Hx].
      rewrite Hx. simpl. eauto.
    + rewrite Hvs. cbn [get].
      destruct (list_comp_raise
                  (fun nv => TestVariant.from_dict (fst nv) (snd nv)) vs (n, v) Hv)
        as [x Hx].
      * unfold TestVariant.from_dict. simpl. rewrite Hl. cbn [get].
        destruct (list_comp_raise TestInput.from_dict l e Hin
                    (input_from_dict_without_type e Hty)) as [x Hx].
        rewrite Hx. simpl. eauto.
      * rewrite Hx. simpl. eauto.
  - intros n Hn. unfold TestInput.from_dict. rewrite Hn, Hty. reflexivity.
  - reflexivity.
Qed.

Lemma from_yaml_input_type_required_witness :
  (exists x, TestConfig.from_yaml Examples.untyped_document = Raise x)
  /\ TestInput.from_dict Examples.untyped_entry = Raise (KeyError "type").
Proof.
  assert (Hentry : input_entry_of Examples.untyped_document Examples.untyped_entry).
  { right. do 4 eexists.
    split; [ reflexivity | ]. split; [ left; reflexivity | ].
    split; [ reflexivity | ]. left. reflexivity. }
  destruct (from_yaml_input_type_required
              Examples.untyped_document Examples.untyped_entry Hentry eq_refl)
    as (Hraise & Hkey & _).
  split; [ exact Hraise | exact (Hkey "buf" eq_refl) ].
Defined.

(** ** Properties of the header *)

Section HeaderProperties.

Context {Path : Type}.
Implicit Types (self : @TestGenerator.t Path) (variant : TestVariant.t).

Import TestGenerator.

(** C2. The header renders the variant's own directives when that list is
    non-empty, whatever the defaults are, and the document's defaults when
    it is empty: its text is the notice and description lines, then the
    lines of the chosen directives in order, a blank element, the input
    block and the additional header, joined by line feeds.  Each directive
    contributes its test line, followed by at most one comment. *)
Theorem header_directives_all_or_nothing self variant :
  (TestVariant.directives variant <> [] ->
     header_directives self variant = TestVariant.directives variant
     /\ _generate_header self variant =
          join nl (notice_lines self ++ description_lines self variant
                   ++ flat_map directive_lines (TestVariant.directives variant)
                   ++ [ "" ] ++ input_block self variant
                   ++ additional_header_lines variant)
     /\ (forall ds,
           _generate_header (generator_with_default_directives ds self) variant
           = _generate_header self variant))
  /\ (TestVariant.directives variant = [] ->
        header_directives self variant = TestConfig.default_directives (config self)
        /\ _generate_header self variant =
             join nl (notice_lines self ++ description_lines self variant
                      ++ flat_map directive_lines
                           (TestConfig.default_directives (config self))
                      ++ [ "" ] ++ input_block self variant
                      ++ additional_header_lines variant))
  /\ header_lines self variant =
       notice_lines self ++ description_lines self variant
       ++ flat_map directive_lines (header_directives self variant)
       ++ [ "" ] ++ input_block self variant ++ additional_header_lines variant
  /\ (forall d, exists comment,
        directive_lines d = TestDirective.to_test_line d :: comment
        /\ length comment <= 1).
Proof.
  split; [ | split; [ | split ] ].
  - intros Hne. unfold _generate_header, header_lines, header_directives.
    destruct (TestVariant.directives variant) as [| d ds'] eqn:E.
    + contradiction.
    + split; [ reflexivity | ]. split; [ reflexivity | ]. intros ds. reflexivity.
  - intros He. unfold _generate_header, header_lines, header_directives.
    rewrite He. split; reflexivity.
  - reflexivity.
  - intros d. unfold directive_lines.
    destruct (negb (TestDirective.enabled d)
              && reason_truthy (TestDirective.disable_reason d)).
    + destruct (TestDirective.disable_reason d) as [r |].
      * destruct (reason_is_issue r); eexists; (split; [ reflexivity | ]); cbn; lia.
      * exists []. split; [ reflexivity | ]. cbn. lia.
    + exists []. split; [ reflexivity | ]. cbn. lia.
Qed.

(** C3. The inputs rendered for a variant are the global inputs followed by
    the variant's inputs: the list has the length of both together, starts
    with the global inputs and continues with the variant's, and the input
    lines (when they are emitted) come in that order. *)
Theorem all_inputs_globals_then_variant self variant :
  let globals := TestConfig.global_inputs (config self) in
  let own := TestVariant.inputs variant in
  all_inputs self variant = globals ++ own
  /\ length (all_inputs self variant) = length globals + length own
  /\ take (length globals) (all_inputs self variant) = globals
  /\ drop (length globals) (all_inputs self variant) = own
  /\ input_block self variant =
       if _shader_has_test_inputs (shader_template self) then []
       else flat_map input_lines globals ++ flat_map input_lines own
            ++ (match globals ++ own with
                | [] => []
                | _ :: _ => [ "" ]
                end).
Proof.
  intros globals own. unfold all_inputs. fold globals own.
  repeat split.
  - apply length_app.
  - apply take_app_length.
  - apply drop_app_length.
  - unfold input_block, all_inputs. fold globals own.
    destruct (_shader_has_test_inputs (shader_template self)); simpl.
    + reflexivity.
    + rewrite flat_map_app, <- app_assoc. reflexivity.
Qed.

(** C9. A variant whose [shader_code] is the empty string is generated
    from the document's shader template: the file is the header followed by
    the template with the template variables substituted (and the filecheck
    block, if any), with the trailing whitespace of every line removed; it
    is the file generated for the same variant without any [shader_code]. *)
Theorem empty_shader_code_uses_template self variant :
  TestVariant.shader_code variant = Some "" ->
  variant_shader self variant = shader_template self
  /\ test_content self variant = test_content self (with_shader_code None variant)
  /\ test_content self variant =
       join nl
         (map rstrip
            (split_nl
               (if truthy (_generate_filecheck_patterns self variant)
                then (_generate_header self variant
                      +:+ _apply_template_vars
                            (shader_template self)
                            (dict_merge (TestConfig.global_template_vars (config self))
                                        (TestVariant.template_vars variant)))
                     +:+ nl +:+ nl +:+ _generate_filecheck_patterns self variant
                else _generate_header self variant
                     +:+ _apply_template_vars
                           (shader_template self)
                           (dict_merge (TestConfig.global_template_vars (config self))
                                       (TestVariant.template_vars variant))))).
Proof.
  intros Hcode. unfold test_content, variant_shader. rewrite Hcode. cbn [truthy_opt truthy].
  split; [ reflexivity | ]. split; reflexivity.
Qed.

End HeaderProperties.

Lemma header_directives_all_or_nothing_witness :
  TestGenerator.header_directives Examples.generator Examples.textured
    = [ Examples.disabled_compute ]
  /\ TestGenerator.header_directives Examples.generator Examples.plain
      = [ Examples.simple_slang ].
Proof.
  destruct (header_directives_all_or_nothing Examples.generator Examples.textured)
    as (Hown & _ & _).
  destruct (header_directives_all_or_nothing Examples.generator Examples.plain)
    as (_ & Hdefault & _).
  split.
  - apply Hown. discriminate.
  - apply Hdefault. reflexivity.
Defined.

Lemma empty_shader_code_uses_template_witness :
  TestGenerator.variant_shader Examples.generator Examples.empty_code
    = "void main() { {{TYPE}} v; }"
  /\ TestGenerator.test_content Examples.generator Examples.empty_code
      = TestGenerator.test_content Examples.generator Examples.textured.
Proof.
  destruct (empty_shader_code_uses_template
              Examples.generator Examples.empty_code eq_refl) as (Hbody & Hsame & _).
  split; [ exact Hbody | exact Hsame ].
Defined.

(** ** The end of the header and the input lines *)


Lemma append_cons (c : ascii) (a b : string) : String c a +:+ b = String c (a +:+ b).
Proof. reflexivity. Qed.

Lemma append_assoc (a b c : string) : (a +:+ b) +:+ c = a +:+ (b +:+ c).
Proof.
  induction a as [| ch a IH].
  - reflexivity.
  - rewrite !append_cons. now rewrite IH.
Qed.

Lemma append_empty_r (a : string) : a +:+ "" = a.
Proof.
  induction a as [| ch a IH].
  - reflexivity.
  - rewrite append_cons. now rewrite IH.
Qed.

Lemma join_snoc_empty (sep : string) (l : list string) :
  l <> [] -> join sep (l ++ [ "" ]) = join sep l +:+ sep.
Proof.
  unfold join. induction l as [| x l IH]; intros Hne.
  - contradiction.
  - destruct l as [| y l].
    + simpl. now rewrite append_empty_r.
    + change (String.concat sep ((x :: y :: l) ++ [ "" ]))
        with (x +:+ sep +:+ String.concat sep ((y :: l) ++ [ "" ])).
      rewrite IH by discriminate.
      change (String.concat sep (x :: y :: l))
        with (x +:+ sep +:+ String.concat sep (y :: l)).
      now rewrite !append_assoc.
Qed.

Lemma ends_with_text_app_r (a b : list string) :
  ends_with_text b -> ends_with_text (a ++ b).
Proof.
  intros (ls & x & -> & Hx). exists (a ++ ls), x. now rewrite app_assoc.
Qed.

Lemma ends_with_text_flat_map {A} (f : A -> list string) (l : list A) :
  (forall a, ends_with_text (f a)) -> l <> [] -> ends_with_text (flat_map f l).
Proof.
  intros Hf. induction l as [| a l IH]; intros Hne.
  - contradiction.
  - simpl. destruct l as [| b l].
    + simpl. rewrite app_nil_r. apply Hf.
    + apply ends_with_text_app_r. apply IH. discriminate.
Qed.

Lemma to_test_line_truthy (d : TestDirective.t) :
  truthy (TestDirective.to_test_line d) = true.
Proof. unfold TestDirective.to_test_line. destruct (TestDirective.test_type d); reflexivity. Qed.

Lemma directive_lines_end (d : TestDirective.t) :
  ends_with_text (TestGenerator.directive_lines d).
Proof.
  unfold TestGenerator.directive_lines.
  destruct (negb (TestDirective.enabled d) && reason_truthy (TestDirective.disable_reason d)).
  - destruct (TestDirective.disable_reason d) as [r |].
    + destruct (reason_is_issue r); eexists [ _ ], _; split; reflexivity.
    + exists [], (TestDirective.to_test_line d). split; [ reflexivity | apply to_test_line_truthy ].
  - exists [], (TestDirective.to_test_line d). split; [ reflexivity | apply to_test_line_truthy ].
Qed.

Lemma input_lines_end (i : TestInput.t) :
  ends_with_text (TestGenerator.input_lines i).
Proof.
  unfold TestGenerator.input_lines.
  destruct (TestInput.declaration i) as [decl |]; simpl.
  - destruct (truthy decl) eqn:E.
    + eexists [ _ ], decl. split; [ reflexivity | exact E ].
    + eexists [], _. split; reflexivity.
  - eexists [], _. split; reflexivity.
Qed.

Lemma blank_line_last (head block extra : list string) :
  ends_with_text head ->
  block = [] \/ (exists ls, block = ls ++ [ "" ] /\ ends_with_text ls) ->
  extra = [] \/ (exists h, extra = [ h; "" ] /\ truthy h = true) ->
  exists ls, head ++ [ "" ] ++ block ++ extra = ls ++ [ "" ] /\ ends_with_text ls.
Proof.
  intros Hhead Hblock Hextra.
  destruct Hextra as [-> | (h & -> & Hh)].
  - rewrite app_nil_r. destruct Hblock as [-> | (ls & -> & Hls)].
    + exists head. split; [ reflexivity | exact Hhead ].
    + exists (head ++ [ "" ] ++ ls). split.
      * now rewrite <- !app_assoc.
      * now do 2 apply ends_with_text_app_r.
  - exists (head ++ [ "" ] ++ block ++ [ h ]). split.
    + now rewrite <- !app_assoc.
    + exists (head ++ [ "" ] ++ block), h. split; [ now rewrite <- !app_assoc | exact Hh ].
Qed.

Section HeaderEnd.

Context {Path : Type}.
Implicit Types (self : @TestGenerator.t Path) (variant : TestVariant.t).

Import TestGenerator.

Lemma header_head_end self variant :
  ends_with_text (notice_lines self ++ description_lines self variant
                  ++ flat_map directive_lines (header_directives self variant)).
Proof.
  apply ends_with_text_app_r.
  destruct (header_directives self variant) as [| d ds] eqn:E.
  - simpl. rewrite app_nil_r. eexists (_ :: _), "//". split; reflexivity.
  - apply ends_with_text_app_r.
    apply ends_with_text_flat_map; [ apply directive_lines_end | discriminate ].
Qed.

Lemma input_block_end self variant :
  input_block self variant = []
  \/ (exists ls, input_block self variant = ls ++ [ "" ] /\ ends_with_text ls).
Proof.
  unfold input_block.
  destruct (negb (_shader_has_test_inputs (shader_template self))); [ | now left ].
  destruct (all_inputs self variant) as [| i is'] eqn:E; [ now left | right ].
  eexists. split; [ reflexivity | ].
  apply ends_with_text_flat_map; [ apply input_lines_end | discriminate ].
Qed.

Lemma additional_header_lines_end variant :
  additional_header_lines variant = []
  \/ (exists h, additional_header_lines variant = [ h; "" ] /\ truthy h = true).
Proof.
  unfold additional_header_lines.
  destruct (TestVariant.additional_header variant) as [h |]; [ | now left ].
  simpl. destruct (truthy h) eqn:E; [ right | now left ].
  exists h. split; [ reflexivity | exact E ].
Qed.

Lemma header_lines_end self variant :
  exists ls, header_lines self variant = ls ++ [ "" ] /\ ends_with_text ls.
Proof.
  destruct (blank_line_last _ _ _ (header_head_end self variant)
              (input_block_end self variant) (additional_header_lines_end variant))
    as (ls & Hls & Hend).
  exists ls. split; [ | exact Hend ].
  rewrite <- Hls. unfold header_lines. now rewrite <- !app_assoc.
Qed.

(** The header text is the elements before the final blank one, the last
    of which is not empty, joined by line feeds and followed by one line
    feed. *)
Lemma generate_header_ends_with_one_newline self variant :
  exists ls, ends_with_text ls /\ _generate_header self variant = join nl ls +:+ nl.
Proof.
  destruct (header_lines_end self variant) as (ls & Hls & Hend).
  exists ls. split; [ exact Hend | ].
  unfold _generate_header. rewrite Hls. apply join_snoc_empty.
  destruct Hend as (l' & x & -> & _). destruct l'; discriminate.
Qed.

(** Whether input lines are emitted does not depend on the variant's own
    shader code. *)
Lemma input_block_ignores_shader_code self variant (code : option string) :
  input_block self (with_shader_code code variant) = input_block self variant.
Proof. reflexivity. Qed.

End HeaderEnd.

(** C1. On the file generated for a variant whose own shader code declares
    its input: the code that is used contains the input marker, the
    document template does not, and the header emits the global input all
    the same, so the input is declared twice. *)
Theorem own_shader_code_inputs_not_suppressed :
  TestGenerator._shader_has_test_inputs
    (TestGenerator.variant_shader Examples.generator Examples.own_shader) = true
  /\ TestGenerator._shader_has_test_inputs
       (TestGenerator.shader_template Examples.generator) = false
  /\ split_nl (TestGenerator.test_content Examples.generator Examples.own_shader) =
       [ "// Test: load - own";
         "//";
         "//TEST:SIMPLE(filecheck=CHECK): -target spirv";
         "";
         "//TEST_INPUT: ubuffer(data=[0], stride=4):name buf";
         "//TEST_INPUT: ubuffer(data=[0], stride=4):name buf";
         "RWStructuredBuffer<uint> buf;";
         "void main() { buf[0] = 1; }" ].
Proof. repeat split; vm_compute; reflexivity. Qed.

(** C7. On two generated files: without inputs the shader starts on the
    line after the last directive, and with inputs it starts on the line
    after the last input line; no blank line separates them. *)
Theorem no_blank_line_before_shader :
  split_nl (TestGenerator.test_content Examples.bare_generator Examples.plain) =
    [ "// Test: bare - plain";
      "//";
      "//TEST:SIMPLE(filecheck=CHECK): -target spirv";
      "void main() {}" ]
  /\ split_nl (TestGenerator.test_content Examples.generator Examples.plain) =
       [ "// Test: load - plain";
         "//";
         "//TEST:SIMPLE(filecheck=CHECK): -target spirv";
         "";
         "//TEST_INPUT: ubuffer(data=[0], stride=4):name buf";
         "void main() { int v; }" ].
Proof. split; vm_compute; reflexivity. Qed.

(** ** Template substitution *)

Lemma contains_cons_false (pat : string) (c : ascii) (s : string) :
  contains pat (String c s) = false ->
  String.prefix pat (String c s) = false /\ contains pat s = false.
Proof.
  change (contains pat (String c s))
    with (String.prefix pat (String c s) || contains pat s).
  intros Hc. now apply orb_false_elim in Hc.
Qed.

Lemma replace_from_absent (old new s : string) :
  contains old s = false -> replace_from old new 0 s = s.
Proof.
  induction s as [| c s IH]; intros Hc.
  - reflexivity.
  - apply contains_cons_false in Hc. destruct Hc as [Hp Hs].
    change (replace_from old new 0 (String c s))
      with (if String.prefix old (String c s)
            then new +:+ replace_from old new (String.length old - 1) s
            else String c (replace_from old new 0 s)).
    rewrite Hp. now rewrite IH.
Qed.

(** Replacing a string that does not occur changes nothing. *)
Lemma replace_absent (old new s : string) :
  contains old s = false -> replace old new s = s.
Proof.
  destruct old as [| c old].
  - destruct s; discriminate.
  - apply replace_from_absent.
Qed.

Lemma apply_template_vars_absent (vars : dict value) (text : string) :
  placeholders_absent vars text = true ->
  TestGenerator._apply_template_vars text vars = text.
Proof.
  unfold TestGenerator._apply_template_vars, placeholders_absent.
  induction vars as [| [k v] vars IH]; cbn [fold_left forallb fst snd]; intros Habs.
  - reflexivity.
  - apply andb_prop in Habs. destruct Habs as [Hk Hrest].
    apply negb_true_iff in Hk. rewrite (replace_absent _ _ _ Hk). now apply IH.
Qed.


(** Two more ways in which a second pass changes the text: a value that
    contains its own key's placeholder, and an empty value that lets the
    surrounding text close up into a placeholder. *)
Example apply_template_vars_own_placeholder :
  TestGenerator._apply_template_vars "{{a}}" [ ("a", VStr "{{a}}!") ] = "{{a}}!"
  /\ TestGenerator._apply_template_vars "{{a}}!" [ ("a", VStr "{{a}}!") ] = "{{a}}!!".
Proof. split; reflexivity. Qed.

Example apply_template_vars_empty_value :
  TestGenerator._apply_template_vars "{{{{a}}a}}" [ ("a", VStr "") ] = "{{a}}"
  /\ TestGenerator._apply_template_vars "{{a}}" [ ("a", VStr "") ] = "".
Proof. split; reflexivity. Qed.

(** ** Resolution of the shader template *)

Section TemplateResolution.

Context {Path : Type}.
Variable path_of_str : string -> Path.
Variable is_absolute : Path -> bool.
Variable parent : Path -> Path.
Variable joinpath : Path -> Path -> Path.
Variable path_exists : Path -> result bool.
Variable read_text : Path -> result string.

Local Abbreviation load :=
  (TestGenerator._load_shader_template
     path_of_str is_absolute parent joinpath path_exists read_text).

(** X20. As long as each probe that is reached returns, the template is
    taken from the first of these that applies:
    (a) the override path, when one is given;
    (b) the [shader_template] path itself, when it is absolute and exists;
    (c) that path relative to the directory of the configuration file, when
        it exists there, whether or not a file of that name exists in the
        working directory;
    (d) that path relative to the working directory, when it exists there;
    (e) the [shader_template] string itself, as inline code. *)
Theorem load_shader_template_order (config_ : TestConfig.t) (config_path_ : Path) :
  let template_path := path_of_str (TestConfig.shader_template config_) in
  let relative_path := joinpath (parent config_path_) template_path in
  let no_absolute_file :=
    is_absolute template_path = false \/ path_exists template_path = Ok false in
  (forall f, load config_ config_path_ (Some f) = read_text f)
  /\ (is_absolute template_path = true ->
      path_exists template_path = Ok true ->
      load config_ config_path_ None = read_text template_path)
  /\ (no_absolute_file ->
      path_exists relative_path = Ok true ->
      load config_ config_path_ None = read_text relative_path)
  /\ (no_absolute_file ->
      path_exists relative_path = Ok false ->
      path_exists template_path = Ok true ->
      load config_ config_path_ None = read_text template_path)
  /\ (no_absolute_file ->
      path_exists relative_path = Ok false ->
      path_exists template_path = Ok false ->
      load config_ config_path_ None = Ok (TestConfig.shader_template config_)).
Proof.
  intros template_path relative_path no_absolute_file.
  unfold TestGenerator._load_shader_template.
  fold template_path. fold relative_path.
  repeat split.
  - intros Habs Hex. rewrite Habs, Hex. reflexivity.
  - intros [Habs | Hex] Hrel.
    + rewrite Habs. simpl. rewrite Hrel. reflexivity.
    + destruct (is_absolute template_path); [ rewrite Hex | ];
        simpl; rewrite Hrel; reflexivity.
  - intros [Habs | Hex] Hrel Hcwd.
    + rewrite Habs. simpl. rewrite Hrel. simpl. rewrite Hcwd. reflexivity.
    + congruence.
  - intros Hno Hrel Hcwd.
    destruct (is_absolute template_path); rewrite ?Hcwd;
      simpl; rewrite Hrel; simpl; rewrite ?Hcwd; reflexivity.
Qed.

End TemplateResolution.

Lemma load_shader_template_order_witness :
  TestGenerator._load_shader_template
    (fun s => s) Examples.fs_is_absolute Examples.fs_parent Examples.fs_joinpath
    Examples.fs_exists Examples.fs_read_text
    Examples.file_config "/tests/load.yaml" None
  = Ok "// next to the configuration".
Proof.
  rewrite (proj1 (proj2 (proj2
             (load_shader_template_order
                (fun s => s) Examples.fs_is_absolute Examples.fs_parent
                Examples.fs_joinpath Examples.fs_exists Examples.fs_read_text
                Examples.file_config "/tests/load.yaml")))).
  - reflexivity.
  - left. reflexivity.
  - reflexivity.
Defined.

(** C5. On an inline template of one line of 345 characters, next to a
    configuration file in an empty directory: the template is not an
    absolute path, the probe of the path relative to the directory of the
    configuration file raises, and [_load_shader_template] raises that
    error where the inline code was to be returned. *)
Theorem load_shader_template_inline_raises :
  String.length MoreExamples.long_inline_template = 345
  /\ contains "/" MoreExamples.long_inline_template = false
  /\ Examples.fs_is_absolute MoreExamples.long_inline_template = false
  /\ MoreExamples.empty_fs_exists
       (Examples.fs_joinpath (Examples.fs_parent "/tests/long.yaml")
                             MoreExamples.long_inline_template)
     = Raise (OSError "[Errno 36] File name too long")
  /\ TestGenerator._load_shader_template
       (fun s => s) Examples.fs_is_absolute Examples.fs_parent Examples.fs_joinpath
       MoreExamples.empty_fs_exists Examples.fs_read_text
       MoreExamples.long_inline_config "/tests/long.yaml" None
     = Raise (OSError "[Errno 36] File name too long").
Proof. repeat split; vm_compute; reflexivity. Qed.

(** The same on any file system: an error of the probe next to the
    configuration file is the result, whatever the template is. *)
Lemma load_shader_template_probe_raises {Path : Type}
    (path_of_str : string -> Path) (is_absolute : Path -> bool) (parent : Path -> Path)
    (joinpath : Path -> Path -> Path) (path_exists : Path -> result bool)
    (read_text : Path -> result string) (config : TestConfig.t) (config_path : Path)
    (e : exn) :
  is_absolute (path_of_str (TestConfig.shader_template config)) = false ->
  path_exists (joinpath (parent config_path)
                        (path_of_str (TestConfig.shader_template config))) = Raise e ->
  TestGenerator._load_shader_template path_of_str is_absolute parent joinpath
    path_exists read_text config config_path None = Raise e.
Proof.
  intros Habs Hprobe. unfold TestGenerator._load_shader_template.
  rewrite Habs. cbn [bind]. now rewrite Hprobe.
Qed.

(** ** Generating all tests *)

Section Emitter.

Context {Path : Type} `{Countable Path}.
Variable path_of_str : string -> Path.
Variable joinpath : Path -> Path -> Path.
Variable format_pattern : string -> string -> string -> result string.
Variable mkdir_error : Path -> option exn.
Variable write_error : gmap Path string -> Path -> string -> option write_failure.

Implicit Types (self : @TestGenerator.t Path) (w : @TestGenerator.World Path _ _).

Import TestGenerator.

Local Abbreviation gen_file := (generate_test_file write_error).
Local Abbreviation gen_variants :=
  (generate_variants path_of_str joinpath format_pattern write_error).
Local Abbreviation gen_all :=
  (generate_all_tests path_of_str joinpath format_pattern mkdir_error write_error).
Local Abbreviation filename_of self variant :=
  (format_pattern (TestConfig.output_pattern (config self))
                  (TestConfig.name (config self)) (TestVariant.name variant)).





(** The loop over a list that continues another one. *)
Lemma generate_variants_app self (output_dir : Path) vs1 vs2 :
  forall w w1,
    gen_variants self output_dir vs1 w = (Ok tt, w1) ->
    gen_variants self output_dir (vs1 ++ vs2) w = gen_variants self output_dir vs2 w1.
Proof.
  induction vs1 as [| v vs1 IH]; intros w w1 Hrun; cbn [generate_variants] in Hrun.
  - now inversion Hrun; subst.
  - cbn [app generate_variants].
    destruct (filename_of self v) as [fn | e]; [ | discriminate ].
    destruct (gen_file self v (joinpath output_dir (path_of_str fn)) w)
      as [[[] | e] w'] eqn:Hfile; [ | discriminate ].
    now apply IH.
Qed.



End Emitter.


(** ** Test lines of directives *)

(** X1. Disabling a directive inserts [DISABLE_] after the two slashes of
    its test line and changes nothing else; unless the directive is
    [CUSTOM], what follows starts with [TEST]. *)
Theorem to_test_line_disable_prefix (d : TestDirective.t) :
  exists rest,
    TestDirective.to_test_line (with_enabled true d) = "//" +:+ rest
    /\ TestDirective.to_test_line (with_enabled false d) = "//DISABLE_" +:+ rest
    /\ (TestDirective.test_type d <> CUSTOM -> exists rest', rest = "TEST" +:+ rest').
Proof.
  unfold TestDirective.to_test_line, with_enabled. cbn [TestDirective.enabled
    TestDirective.test_type TestDirective.flags TestDirective.filecheck].
  destruct (TestDirective.test_type d); eexists; (split; [ reflexivity | split; [ reflexivity | ] ]);
    intros Hne; try (eexists; reflexivity).
  contradiction.
Qed.

Lemma to_test_line_disable_prefix_witness :
  exists rest',
    TestDirective.to_test_line (with_enabled false Examples.disabled_compute)
    = "//DISABLE_TEST" +:+ rest'.
Proof.
  destruct (to_test_line_disable_prefix Examples.disabled_compute)
    as (rest & _ & Hoff & Htest).
  destruct Htest as [rest' ->]; [ discriminate | ].
  exists rest'. exact Hoff.
Defined.

(** X2. Each of the six member names parses to its own member. *)
Theorem from_dict_recognized_kind (d : TestDirective.data) (ty : TestType) :
  TestDirective.d_type d = Some (TestType_name ty) ->
  TestDirective.test_type (TestDirective.from_dict d) = ty.
Proof.
  intros Hty. unfold TestDirective.from_dict. rewrite Hty. destruct ty; reflexivity.
Qed.

Lemma from_dict_recognized_kind_witness :
  TestDirective.test_type
    (TestDirective.from_dict
       {| TestDirective.d_type := Some "CROSS_COMPILE";
          TestDirective.d_flags := None;
          TestDirective.d_filecheck := None;
          TestDirective.d_enabled := None;
          TestDirective.d_disable_reason := None |}) = CROSS_COMPILE.
Proof.
  apply (from_dict_recognized_kind _ CROSS_COMPILE). reflexivity.
Defined.

(** ** Which documents load *)

Lemma list_comp_ok_iff {A B} (f : A -> result B) (ok : A -> bool) (l : list A) :
  (forall x, (exists y, f x = Ok y) <-> ok x = true) ->
  (exists ys, list_comp f l = Ok ys) <-> forallb ok l = true.
Proof.
  intros Hok. induction l as [| a l IH]; cbn [list_comp forallb].
  - split; eauto.
  - rewrite andb_true_iff, <- IH, <- Hok. split.
    + intros [ys Hys]. destruct (f a) as [b | e]; [ | discriminate ].
      cbn [bind] in Hys. destruct (list_comp f l) as [bs | e]; [ | discriminate ].
      eauto.
    + intros [[b Hb] [bs Hbs]]. rewrite Hb, Hbs. cbn [bind]. eauto.
Qed.

Lemma list_comp_map {A B C} (f : A -> result B) (g : B -> C) (h : A -> C) :
  (forall x y, f x = Ok y -> g y = h x) ->
  forall l ys, list_comp f l = Ok ys -> map g ys = map h l.
Proof.
  intros Hgh. induction l as [| a l IH]; cbn [list_comp]; intros ys Hys.
  - now inversion Hys.
  - destruct (f a) as [b | e] eqn:Ea; [ | discriminate ]. cbn [bind] in Hys.
    destruct (list_comp f l) as [bs | e]; [ | discriminate ].
    cbn [bind] in Hys. inversion Hys; subst. cbn [map].
    now rewrite (Hgh _ _ Ea), (IH bs eq_refl).
Qed.

Lemma input_from_dict_ok_iff (e : TestInput.data) :
  (exists i, TestInput.from_dict e = Ok i) <-> input_loadable e = true.
Proof.
  unfold TestInput.from_dict, input_loadable.
  destruct (TestInput.d_name e), (TestInput.d_type e); cbn [getitem bind];
    split; eauto; try discriminate; intros [i Hi]; discriminate.
Qed.

Lemma variant_from_dict_ok_iff (n : string) (d : TestVariant.data) :
  (exists v, TestVariant.from_dict n d = Ok v)
  <-> forallb input_loadable (get (TestVariant.d_inputs d) []) = true.
Proof.
  rewrite <- (list_comp_ok_iff TestInput.from_dict input_loadable _ input_from_dict_ok_iff).
  unfold TestVariant.from_dict.
  destruct (list_comp TestInput.from_dict (get (TestVariant.d_inputs d) [])) as [is_ | e];
    cbn [bind]; split; eauto; intros [x Hx]; discriminate.
Qed.

(** X3. Among the documents in which every variant body is a mapping and
    every key that is present holds a value of the type of its field, a
    document loads exactly when it has [test_config] with [name] and
    [shader_template] and each of its input entries, global or of a
    variant, has [name] and [type]; every other key may be missing. *)
Theorem from_yaml_ok_iff_loadable (d : TestConfig.data) :
  (exists config, TestConfig.from_yaml d = Ok config) <-> loadable d = true.
Proof.
  unfold TestConfig.from_yaml, loadable.
  destruct (TestConfig.d_test_config d) as [c |]; cbn [getitem bind].
  2: { split; [ intros [x Hx] | ]; discriminate. }
  rewrite !andb_true_iff.
  rewrite <- (list_comp_ok_iff (fun nv => TestVariant.from_dict (fst nv) (snd nv))
                (fun nv => forallb input_loadable (get (TestVariant.d_inputs (snd nv)) []))
                _ (fun nv => variant_from_dict_ok_iff (fst nv) (snd nv))).
  rewrite <- (list_comp_ok_iff TestInput.from_dict input_loadable _ input_from_dict_ok_iff).
  destruct (list_comp (fun nv => TestVariant.from_dict (fst nv) (snd nv))
              (get (TestConfig.d_variants d) [])) as [vs | e]; cbn [bind].
  2: { split; [ intros [x Hx]; discriminate | intros [[[x Hx] _] _]; discriminate ]. }
  destruct (list_comp TestInput.from_dict (get (TestConfig.d_global_inputs c) []))
    as [gs | e]; cbn [bind].
  2: { split; [ intros [x Hx]; discriminate | intros [[_ [x Hx]] _]; discriminate ]. }
  destruct (TestConfig.d_name c), (TestConfig.d_shader_template c); cbn [getitem bind];
    split; eauto; try (intros [x Hx]; discriminate); intros [_ Hf]; discriminate.
Qed.

Lemma variant_from_dict_name (n : string) (d : TestVariant.data) (v : TestVariant.t) :
  TestVariant.from_dict n d = Ok v -> TestVariant.name v = n.
Proof.
  unfold TestVariant.from_dict.
  destruct (list_comp TestInput.from_dict (get (TestVariant.d_inputs d) []));
    cbn [bind]; [ | discriminate ].
  now intros [= <-].
Qed.

Lemma input_from_dict_name (e : TestInput.data) (i : TestInput.t) :
  TestInput.from_dict e = Ok i -> Some (TestInput.name i) = TestInput.d_name e.
Proof.
  unfold TestInput.from_dict.
  destruct (TestInput.d_name e), (TestInput.d_type e); cbn [getitem bind];
    try discriminate.
  now intros [= <-].
Qed.

(** X4. A loaded configuration has one variant per entry of [variants], in
    document order and named by the entry's key, and one global input per
    entry of [global_inputs], in order. *)
Theorem from_yaml_keeps_order (d : TestConfig.data) (config : TestConfig.t) :
  TestConfig.from_yaml d = Ok config ->
  map TestVariant.name (TestConfig.variants config)
    = map fst (get (TestConfig.d_variants d) [])
  /\ exists c,
       TestConfig.d_test_config d = Some c
       /\ map (fun i => Some (TestInput.name i)) (TestConfig.global_inputs config)
          = map TestInput.d_name (get (TestConfig.d_global_inputs c) []).
Proof.
  unfold TestConfig.from_yaml.
  destruct (TestConfig.d_test_config d) as [c |]; cbn [getitem bind]; [ | discriminate ].
  destruct (list_comp (fun nv => TestVariant.from_dict (fst nv) (snd nv))
              (get (TestConfig.d_variants d) [])) as [vs | e] eqn:Evs;
    cbn [bind]; [ | discriminate ].
  destruct (list_comp TestInput.from_dict (get (TestConfig.d_global_inputs c) []))
    as [gs | e] eqn:Egs; cbn [bind]; [ | discriminate ].
  destruct (TestConfig.d_name c), (TestConfig.d_shader_template c);
    cbn [getitem bind]; try discriminate.
  intros [= <-]. cbn [TestConfig.variants TestConfig.global_inputs]. split.
  - apply (list_comp_map _ _ _ (fun nv v => variant_from_dict_name _ _ v) _ _ Evs).
  - exists c. split; [ reflexivity | ].
    apply (list_comp_map _ _ _ input_from_dict_name _ _ Egs).
Qed.

Lemma from_yaml_keeps_order_witness :
  match TestConfig.from_yaml MoreExamples.document with
  | Ok config => map TestVariant.name (TestConfig.variants config) = [ "second"; "first" ]
  | Raise _ => False
  end.
Proof.
  destruct (TestConfig.from_yaml MoreExamples.document) as [config | e] eqn:E.
  - exact (proj1 (from_yaml_keeps_order MoreExamples.document config E)).
  - vm_compute in E. discriminate E.
Defined.

(** ** Lines of the generated file *)

Lemma decode_one_append (a b : string) (x : N * nat) :
  decode_one a = Some x -> decode_one (a +:+ b) = Some x.
Proof.
  destruct a as [| c0 a]; [ discriminate | ].
  rewrite append_cons. unfold decode_one. cbv zeta.
  destruct (byte c0 <? 128)%N; [ trivial | ].
  destruct (byte c0 <? 192)%N; [ trivial | ].
  destruct a as [| c1 a]; [ repeat destruct (_ <? _)%N; discriminate | ].
  rewrite append_cons.
  destruct (byte c0 <? 224)%N; [ trivial | ].
  destruct a as [| c2 a]; [ repeat destruct (_ <? _)%N; discriminate | ].
  rewrite append_cons.
  destruct (byte c0 <? 240)%N; [ trivial | ].
  destruct a as [| c3 a]; [ discriminate | ].
  rewrite append_cons. trivial.
Qed.

Lemma all_chars_from_cons (P : N -> bool) (skip : nat) (c : ascii) (s : string) :
  all_chars_from P skip (String c s) =
    match skip with
    | S k => all_chars_from P k s
    | O =>
        match decode_one (String c s) with
        | Some (point, size) => P point && all_chars_from P (size - 1) s
        | None => false
        end
    end.
Proof. reflexivity. Qed.

(** Whitespace followed by whitespace is whitespace. *)
Lemma all_chars_from_append (P : N -> bool) (a b : string) :
  forall skip,
    all_chars_from P skip a = true ->
    all_chars P b = true ->
    all_chars_from P skip (a +:+ b) = true.
Proof.
  induction a as [| c a IH]; intros skip Ha Hb.
  - cbn [all_chars_from] in Ha. apply Nat.eqb_eq in Ha. subst skip. exact Hb.
  - rewrite append_cons, all_chars_from_cons. rewrite all_chars_from_cons in Ha.
    destruct skip as [| k]; [ | now apply IH ].
    destruct (decode_one (String c a)) as [[point size] |] eqn:E; [ | discriminate ].
    rewrite <- append_cons, (decode_one_append _ b _ E).
    apply andb_prop in Ha. destruct Ha as [Hp Ha]. rewrite Hp. now apply IH.
Qed.

Lemma rstrip_cons (c : ascii) (s : string) :
  rstrip (String c s) =
    if all_space (String c s) then EmptyString else String c (rstrip s).
Proof. reflexivity. Qed.

(** What [rstrip] cuts off is whitespace. *)
Lemma rstrip_cut (s : string) : exists t, s = rstrip s +:+ t /\ all_space t = true.
Proof.
  induction s as [| c s IH].
  - now exists EmptyString.
  - rewrite rstrip_cons. destruct (all_space (String c s)) eqn:E.
    + now exists (String c s).
    + destruct IH as (t & Hs & Ht). exists t. split; [ | exact Ht ].
      rewrite append_cons. now rewrite <- Hs.
Qed.

Lemma rstrip_keeps_text (c : ascii) (s : string) :
  all_space (String c s) = false -> all_space (String c (rstrip s)) = false.
Proof.
  intros Hs. destruct (all_space (String c (rstrip s))) eqn:E; [ | reflexivity ].
  destruct (rstrip_cut s) as (t & Hcut & Ht).
  pose proof (all_chars_from_append is_space_point _ t 0 E Ht) as Hall.
  rewrite append_cons, <- Hcut in Hall. unfold all_space, all_chars in Hs. congruence.
Qed.

(** [rstrip] leaves what it returns alone. *)
Lemma rstrip_idempotent (s : string) : rstrip (rstrip s) = rstrip s.
Proof.
  induction s as [| c s IH].
  - reflexivity.
  - rewrite rstrip_cons. destruct (all_space (String c s)) eqn:E; [ reflexivity | ].
    rewrite rstrip_cons, (rstrip_keeps_text c s E). now rewrite IH.
Qed.

Lemma rstrip_no_trailing_space (s : string) : ends_in_space (rstrip s) = false.
Proof.
  induction s as [| c s IH].
  - reflexivity.
  - rewrite rstrip_cons. destruct (all_space (String c s)) eqn:E; [ reflexivity | ].
    cbn [ends_in_space]. now rewrite (rstrip_keeps_text c s E), IH.
Qed.

Lemma rstrip_no_newline (s : string) : no_newline s = true -> no_newline (rstrip s) = true.
Proof.
  induction s as [| c s IH]; cbn [no_newline]; intros Hs.
  - reflexivity.
  - apply andb_prop in Hs. destruct Hs as [Hc Hs].
    rewrite rstrip_cons. destruct (all_space (String c s)); [ reflexivity | ].
    cbn [no_newline]. now rewrite Hc, (IH Hs).
Qed.

Lemma split_nl_cons (c : ascii) (s : string) :
  split_nl (String c s) =
    if Ascii.eqb c (ascii_of_nat 10) then EmptyString :: split_nl s
    else match split_nl s with
         | h :: t => String c h :: t
         | [] => [ String c EmptyString ]
         end.
Proof. reflexivity. Qed.

Lemma split_nl_no_newline (s : string) : Forall (fun l => no_newline l = true) (split_nl s).
Proof.
  induction s as [| c s IH].
  - repeat constructor.
  - rewrite split_nl_cons. destruct (Ascii.eqb c (ascii_of_nat 10)) eqn:Ec.
    + constructor; [ reflexivity | exact IH ].
    + destruct (split_nl s) as [| h t].
      * repeat constructor. cbn [no_newline]. now rewrite Ec.
      * inversion IH; subst. constructor; [ | assumption ].
        cbn [no_newline]. rewrite Ec. assumption.
Qed.

(** Splitting at line feeds undoes joining lines that have none. *)
Lemma split_nl_join (ls : list string) :
  ls <> [] -> Forall (fun l => no_newline l = true) ls -> split_nl (join nl ls) = ls.
Proof.
  assert (Hpre : forall x rest, no_newline x = true ->
                   split_nl (x +:+ nl +:+ rest) = x :: split_nl rest).
  { induction x as [| c x IHx]; intros rest Hx.
    - reflexivity.
    - cbn [no_newline] in Hx. apply andb_prop in Hx. destruct Hx as [Hc Hx].
      rewrite append_cons, split_nl_cons, (IHx rest Hx).
      apply negb_true_iff in Hc. now rewrite Hc. }
  assert (Hone : forall x, no_newline x = true -> split_nl x = [ x ]).
  { induction x as [| c x IHx]; intros Hx.
    - reflexivity.
    - cbn [no_newline] in Hx. apply andb_prop in Hx. destruct Hx as [Hc Hx].
      rewrite split_nl_cons, (IHx Hx). apply negb_true_iff in Hc. now rewrite Hc. }
  unfold join. induction ls as [| x ls IH]; intros Hne Hall.
  - contradiction.
  - inversion Hall as [| ? ? Hx Hls]; subst. destruct ls as [| y ls].
    + apply Hone. exact Hx.
    + change (String.concat nl (x :: y :: ls))
        with (x +:+ nl +:+ String.concat nl (y :: ls)).
      rewrite (Hpre _ _ Hx). f_equal. apply IH; [ discriminate | exact Hls ].
Qed.

Lemma split_nl_nonempty (s : string) : split_nl s <> [].
Proof.
  destruct s as [| c s]; [ discriminate | ].
  rewrite split_nl_cons. destruct (Ascii.eqb c (ascii_of_nat 10)); [ discriminate | ].
  destruct (split_nl s); discriminate.
Qed.

Section GeneratedLines.

Context {Path : Type}.
Implicit Types (self : @TestGenerator.t Path) (variant : TestVariant.t).

(** X5. No line of a generated file ends in a whitespace character, one
    for which [str.isspace] holds: each line is its own [rstrip]. *)
Theorem test_content_no_trailing_whitespace self variant :
  Forall (fun line => ends_in_space line = false /\ rstrip line = line)
         (split_nl (TestGenerator.test_content self variant)).
Proof.
  unfold TestGenerator.test_content.
  match goal with
  | |- context [ map rstrip (split_nl ?raw) ] => generalize raw
  end.
  intros raw. rewrite split_nl_join.
  - apply List.Forall_forall. intros line Hin. apply in_map_iff in Hin.
    destruct Hin as (l & <- & _).
    split; [ apply rstrip_no_trailing_space | apply rstrip_idempotent ].
  - intros Hnil. apply map_eq_nil in Hnil. now apply split_nl_nonempty in Hnil.
  - apply List.Forall_forall. intros line Hin. apply in_map_iff in Hin.
    destruct Hin as (l & <- & Hl). apply rstrip_no_newline.
    exact (proj1 (List.Forall_forall _ _) (split_nl_no_newline raw) l Hl).
Qed.

End GeneratedLines.

(** ** Merged dictionaries *)

Section DictMerge.

Context {V : Type}.
Implicit Types (a b : dict V) (k : string) (v : V).

Lemma dict_lookup_absent k a : k ∉ map fst a -> dict_lookup k a = None.
Proof.
  induction a as [| [k' v'] a IH]; cbn [map fst dict_lookup]; intros Hk.
  - reflexivity.
  - apply not_elem_of_cons in Hk. destruct Hk as [Hne Hk].
    apply String.eqb_neq in Hne. rewrite Hne. now apply IH.
Qed.

Lemma dict_lookup_cons_None k k' v' a :
  dict_lookup k ((k', v') :: a) = None -> String.eqb k k' = false /\ dict_lookup k a = None.
Proof.
  cbn [dict_lookup]. destruct (String.eqb k k'); [ discriminate | now split ].
Qed.

Lemma map_override_cons k v a b :
  dict_lookup k a = None -> map (override ((k, v) :: b)) a = map (override b) a.
Proof.
  induction a as [| [k1 v1] a IH]; intros Hk.
  - reflexivity.
  - apply dict_lookup_cons_None in Hk. destruct Hk as [Hne Hk].
    cbn [map]. rewrite (IH Hk). f_equal.
    unfold override. cbn [fst snd dict_lookup].
    rewrite String.eqb_sym in Hne. now rewrite Hne.
Qed.

Lemma map_override_nil a : map (override []) a = a.
Proof.
  induction a as [| [k v] a IH]; [ reflexivity | ]. cbn [map]. now rewrite IH.
Qed.

Lemma dict_mem_cons k k' v' a :
  dict_mem k ((k', v') :: a) = String.eqb k k' || dict_mem k a.
Proof. unfold dict_mem. cbn [dict_lookup]. now destruct (String.eqb k k'). Qed.

Lemma dict_mem_false k a : dict_mem k a = false -> dict_lookup k a = None.
Proof. unfold dict_mem. now destruct (dict_lookup k a). Qed.

(** The keys after [d[k] = v]. *)
Lemma dict_set_keys k v a :
  map fst (dict_set k v a) = if dict_mem k a then map fst a else map fst a ++ [ k ].
Proof.
  induction a as [| [k1 v1] a IH]; [ reflexivity | ].
  cbn [dict_set]. rewrite dict_mem_cons. destruct (String.eqb k k1) eqn:E.
  - reflexivity.
  - cbn [map fst orb]. rewrite IH. now destruct (dict_mem k a).
Qed.

Lemma dict_mem_keys k a : dict_mem k a = true <-> k ∈ map fst a.
Proof.
  induction a as [| [k1 v1] a IH].
  - split; [ discriminate | intros Hin; inversion Hin ].
  - rewrite dict_mem_cons, orb_true_iff, IH. cbn [map fst]. rewrite elem_of_cons.
    now rewrite String.eqb_eq.
Qed.

Lemma dict_set_NoDup k v a : NoDup (map fst a) -> NoDup (map fst (dict_set k v a)).
Proof.
  intros Ha. rewrite dict_set_keys. destruct (dict_mem k a) eqn:E; [ exact Ha | ].
  apply NoDup_app. split; [ exact Ha | split; [ | apply NoDup_singleton ] ].
  intros x Hx Hk. apply list_elem_of_singleton in Hk. subst x.
  apply dict_mem_keys in Hx. congruence.
Qed.

Lemma dict_mem_set k k' v a :
  dict_mem k' (dict_set k v a) = String.eqb k' k || dict_mem k' a.
Proof.
  induction a as [| [k1 v1] a IH].
  - cbn [dict_set]. now rewrite dict_mem_cons.
  - cbn [dict_set]. destruct (String.eqb k k1) eqn:E.
    + rewrite !dict_mem_cons. apply String.eqb_eq in E. subst k1.
      now destruct (String.eqb k' k).
    + rewrite !dict_mem_cons, IH.
      destruct (String.eqb k' k1), (String.eqb k' k); reflexivity.
Qed.

Lemma map_override_set k v a b :
  dict_lookup k b = None ->
  NoDup (map fst a) ->
  map (override b) (dict_set k v a)
  = map (override ((k, v) :: b)) a ++ (if dict_mem k a then [] else [ (k, v) ]).
Proof.
  intros Hb. induction a as [| [k1 v1] a IH]; intros Ha.
  - cbn [dict_set map]. unfold override at 1. cbn [fst snd]. now rewrite Hb.
  - cbn [map fst] in Ha. apply NoDup_cons in Ha. destruct Ha as [Hk1 Ha].
    cbn [dict_set]. rewrite dict_mem_cons. destruct (String.eqb k k1) eqn:E.
    + apply String.eqb_eq in E. subst k1. cbn [map orb]. rewrite app_nil_r.
      rewrite (map_override_cons k v a b (dict_lookup_absent _ _ Hk1)). f_equal.
      unfold override. cbn [fst snd dict_lookup]. now rewrite Hb, String.eqb_refl.
    + cbn [map orb]. rewrite (IH Ha). cbn [app]. f_equal.
      unfold override. cbn [fst snd dict_lookup].
      rewrite String.eqb_sym in E. now rewrite E.
Qed.

(** X6. Merging [b] into [a] keeps the entries of [a] in place, each with
    the value [b] has for its key if it has one, and appends the entries of
    [b] whose keys are new, in their order; the keys stay distinct. *)
Theorem dict_merge_closed_form a b :
  NoDup (map fst a) ->
  NoDup (map fst b) ->
  dict_merge a b
  = map (override b) a ++ List.filter (fun kv => negb (dict_mem (fst kv) a)) b
  /\ NoDup (map fst (dict_merge a b)).
Proof.
  unfold dict_merge. revert a. induction b as [| [k v] b IH]; intros a Ha Hb.
  - cbn [fold_left]. rewrite map_override_nil. split; [ now rewrite app_nil_r | exact Ha ].
  - cbn [map fst] in Hb. apply NoDup_cons in Hb. destruct Hb as [Hk Hb].
    cbn [fold_left fst snd].
    destruct (IH (dict_set k v a) (dict_set_NoDup k v a Ha) Hb) as [Heq Hnd].
    split; [ | exact Hnd ]. rewrite Heq.
    rewrite (map_override_set k v a b (dict_lookup_absent _ _ Hk) Ha).
    rewrite <- app_assoc. f_equal.
    assert (Hfilter : List.filter (fun kv => negb (dict_mem (fst kv) (dict_set k v a))) b
                      = List.filter (fun kv => negb (dict_mem (fst kv) a)) b).
    { clear -Hk. induction b as [| [k2 v2] b IHb]; [ reflexivity | ].
      cbn [map fst] in Hk. apply not_elem_of_cons in Hk. destruct Hk as [Hne Hk].
      cbn [List.filter fst]. rewrite dict_mem_set.
      apply not_eq_sym in Hne. apply String.eqb_neq in Hne. rewrite Hne. cbn [orb].
      rewrite (IHb Hk). reflexivity. }
    rewrite Hfilter. cbn [List.filter fst].
    destruct (dict_mem k a); reflexivity.
Qed.

End DictMerge.

Lemma dict_merge_closed_form_witness :
  dict_merge [ ("TYPE", VStr "int"); ("N", VInt 4) ]
             [ ("M", VInt 1); ("TYPE", VStr "float4") ]
  = [ ("TYPE", VStr "float4"); ("N", VInt 4); ("M", VInt 1) ].
Proof.
  rewrite (proj1 (dict_merge_closed_form
                    [ ("TYPE", VStr "int"); ("N", VInt 4) ]
                    [ ("M", VInt 1); ("TYPE", VStr "float4") ]
                    ltac:(repeat first
                            [ apply NoDup_nil_2
                            | apply NoDup_cons_2;
                              [ intros Hin; apply list_elem_of_In in Hin;
                                simpl in Hin; intuition discriminate | ] ])
                    ltac:(repeat first
                            [ apply NoDup_nil_2
                            | apply NoDup_cons_2;
                              [ intros Hin; apply list_elem_of_In in Hin;
                                simpl in Hin; intuition discriminate | ] ]))).
  reflexivity.
Defined.

(** ** Substitution of placeholders *)

Lemma placeholder_cons (k : string) :
  TestGenerator.placeholder k = String "{" (String "{" (k +:+ "}}")).
Proof. reflexivity. Qed.

Lemma prefix_cons (c1 c2 : ascii) (p s : string) :
  String.prefix (String c1 p) (String c2 s)
  = if Ascii.eqb c1 c2 then String.prefix p s else false.
Proof.
  cbn [String.prefix]. destruct (ascii_dec c1 c2) as [-> | Hne].
  - now rewrite Ascii.eqb_refl.
  - apply Ascii.eqb_neq in Hne. now rewrite Hne.
Qed.

Lemma prefix_append (a b : string) : String.prefix a (a +:+ b) = true.
Proof.
  induction a as [| c a IH].
  - now destruct b.
  - rewrite append_cons, prefix_cons, Ascii.eqb_refl. exact IH.
Qed.

Lemma prefix_no_open_brace (k s : string) :
  no_open_brace s = true -> String.prefix (TestGenerator.placeholder k) s = false.
Proof.
  rewrite placeholder_cons. destruct s as [| c s]; [ reflexivity | ].
  cbn [no_open_brace]. intros Hs. apply andb_prop in Hs. destruct Hs as [Hc _].
  rewrite prefix_cons. apply negb_true_iff in Hc.
  rewrite Ascii.eqb_sym in Hc. now rewrite Hc.
Qed.

Lemma contains_no_open_brace (k s : string) :
  no_open_brace s = true -> contains (TestGenerator.placeholder k) s = false.
Proof.
  induction s as [| c s IH]; intros Hs.
  - rewrite placeholder_cons. reflexivity.
  - change (contains (TestGenerator.placeholder k) (String c s))
      with (String.prefix (TestGenerator.placeholder k) (String c s)
            || contains (TestGenerator.placeholder k) s).
    rewrite (prefix_no_open_brace k _ Hs).
    cbn [no_open_brace] in Hs. apply andb_prop in Hs. destruct Hs as [_ Hs].
    now rewrite (IH Hs).
Qed.

(** X7. A text without an opening brace is left as it is, whatever the
    template variables are. *)
Theorem apply_template_vars_no_brace (text : string) (vars : dict value) :
  no_open_brace text = true ->
  TestGenerator._apply_template_vars text vars = text.
Proof.
  intros Htext. apply apply_template_vars_absent. unfold placeholders_absent.
  apply forallb_forall. intros [k v] _. cbn [fst].
  now rewrite (contains_no_open_brace k text Htext).
Qed.

Lemma apply_template_vars_no_brace_witness :
  TestGenerator._apply_template_vars "void main() }}" [ ("TYPE", VStr "int") ]
  = "void main() }}".
Proof. apply apply_template_vars_no_brace. reflexivity. Defined.

Lemma replace_from_cons (old new : string) (c : ascii) (s : string) :
  replace_from old new 0 (String c s)
  = if String.prefix old (String c s)
    then new +:+ replace_from old new (String.length old - 1) s
    else String c (replace_from old new 0 s).
Proof. reflexivity. Qed.

Lemma replace_from_skip (old new a rest : string) :
  replace_from old new (String.length a) (a +:+ rest) = replace_from old new 0 rest.
Proof.
  induction a as [| c a IH]; [ now destruct rest | ].
  rewrite append_cons. cbn [String.length replace_from]. exact IH.
Qed.

Lemma replace_from_no_open_brace (k new pre rest : string) :
  no_open_brace pre = true ->
  replace_from (TestGenerator.placeholder k) new 0 (pre +:+ rest)
  = pre +:+ replace_from (TestGenerator.placeholder k) new 0 rest.
Proof.
  induction pre as [| c pre IH]; intros Hpre; [ reflexivity | ].
  cbn [no_open_brace] in Hpre. apply andb_prop in Hpre. destruct Hpre as [Hc Hpre].
  rewrite !append_cons, replace_from_cons, (IH Hpre).
  rewrite placeholder_cons at 1. rewrite prefix_cons.
  apply negb_true_iff in Hc. rewrite Ascii.eqb_sym in Hc. now rewrite Hc.
Qed.

Lemma replace_from_placeholder (k new rest : string) :
  replace_from (TestGenerator.placeholder k) new 0 (TestGenerator.placeholder k +:+ rest)
  = new +:+ replace_from (TestGenerator.placeholder k) new 0 rest.
Proof.
  set (old := TestGenerator.placeholder k).
  assert (Hold : old = String "{" (String "{" (k +:+ "}}"))) by reflexivity.
  rewrite Hold at 2. rewrite append_cons, replace_from_cons.
  rewrite <- append_cons, <- Hold, prefix_append.
  f_equal.
  change (String.length old - 1) with (String.length (String "{" (k +:+ "}}"))).
  apply replace_from_skip.
Qed.

(** X8. With one template variable, a text made of pieces without opening
    braces, joined by the variable's placeholder, becomes the same pieces
    joined by the variable's value: every occurrence is replaced and
    nothing else changes. *)
Theorem apply_template_vars_join (k : string) (v : value) (pieces : list string) :
  Forall (fun piece => no_open_brace piece = true) pieces ->
  TestGenerator._apply_template_vars (join (TestGenerator.placeholder k) pieces) [ (k, v) ]
  = join (str v) pieces.
Proof.
  unfold TestGenerator._apply_template_vars. cbn [fold_left fst snd].
  rewrite placeholder_cons at 1. cbn [replace]. rewrite <- placeholder_cons.
  unfold join. induction pieces as [| x pieces IH]; intros Hall.
  - reflexivity.
  - inversion Hall as [| ? ? Hx Hrest]; subst. destruct pieces as [| y pieces].
    + cbn [String.concat]. apply replace_from_absent.
      now apply contains_no_open_brace.
    + change (String.concat ?sep (x :: y :: pieces))
        with (x +:+ sep +:+ String.concat sep (y :: pieces)).
      rewrite (replace_from_no_open_brace _ _ _ _ Hx), replace_from_placeholder.
      now rewrite (IH Hrest).
Qed.

Lemma apply_template_vars_join_witness :
  TestGenerator._apply_template_vars
    "Texture2D<{{TYPE}}> t; {{TYPE}} v;" [ ("TYPE", VStr "float4") ]
  = "Texture2D<float4> t; float4 v;".
Proof.
  apply (apply_template_vars_join "TYPE" (VStr "float4")
           [ "Texture2D<"; "> t; "; " v;" ]).
  repeat constructor.
Defined.

(** ** Substitution in a text of pieces *)














(** ** Runs of [generate_all_tests] *)

Section Runs.

Context {Path : Type} `{Countable Path}.
Variable path_of_str : string -> Path.
Variable joinpath : Path -> Path -> Path.
Variable format_pattern : string -> string -> string -> result string.
Variable mkdir_error : Path -> option exn.
Variable write_error : gmap Path string -> Path -> string -> option write_failure.

Implicit Types (self : @TestGenerator.t Path) (w : @TestGenerator.World Path _ _).

Import TestGenerator.

Local Abbreviation gen_file := (generate_test_file write_error).
Local Abbreviation gen_variants :=
  (generate_variants path_of_str joinpath format_pattern write_error).
Local Abbreviation gen_all :=
  (generate_all_tests path_of_str joinpath format_pattern mkdir_error write_error).
Local Abbreviation filename_of self variant :=
  (format_pattern (TestConfig.output_pattern (config self))
                  (TestConfig.name (config self)) (TestVariant.name variant)).
Local Abbreviation output_path output_dir filename :=
  (joinpath output_dir (path_of_str filename)).
Local Abbreviation writes_of self output_dir vs fns :=
  (map (fun vf => (output_path output_dir (snd vf), test_content self (fst vf)))
       (combine vs fns)).

Lemma generate_variants_success self (output_dir : Path) :
  (forall files p content, write_error files p content = None) ->
  forall vs fns w,
    Forall2 (fun v fn => filename_of self v = Ok fn) vs fns ->
    gen_variants self output_dir vs w =
      (Ok tt,
       {| disk := write_all (writes_of self output_dir vs fns) (disk w);
          stdout := stdout w ++ map (fun fn => "  ✓ Generated: " +:+ fn) fns |}).
Proof.
  intros Hwrite. induction vs as [| v vs IH]; intros fns w Hfns.
  - inversion Hfns; subst. cbn. rewrite app_nil_r. now destruct w.
  - inversion Hfns as [| ? fn ? fns' Hfn Hrest]; subst.
    cbn [generate_variants]. rewrite Hfn.
    unfold generate_test_file, write_file. rewrite Hwrite.
    rewrite (IH fns' _ Hrest). cbn [disk stdout print combine map write_all fold_left fst snd].
    now rewrite <- app_assoc.
Qed.

(** X9. When the directory can be made, every file name can be formatted
    and no write fails, [generate_all_tests] returns normally, has written
    the file of every variant in declaration order, and has printed the
    title line and one line per variant. *)
Theorem generate_all_tests_success self (output_dir : Path) (fns : list string) w0 :
  mkdir_error output_dir = None ->
  Forall2 (fun v fn => filename_of self v = Ok fn) (TestConfig.variants (config self)) fns ->
  (forall files p content, write_error files p content = None) ->
  gen_all self output_dir w0 =
    (Ok tt,
     {| disk := write_all (writes_of self output_dir (TestConfig.variants (config self)) fns)
                          (disk w0);
        stdout := stdout w0
                  ++ [ "Generating tests for: " +:+ TestConfig.name (config self) ]
                  ++ map (fun fn => "  ✓ Generated: " +:+ fn) fns |}).
Proof.
  intros Hmk Hfns Hwrite. unfold generate_all_tests. rewrite Hmk.
  rewrite (generate_variants_success self output_dir Hwrite _ fns _ Hfns).
  cbn [disk stdout print]. now rewrite <- app_assoc.
Qed.

Lemma write_all_other (writes : list (Path * string)) (q : Path) :
  forall files, q ∉ map fst writes -> write_all writes files !! q = files !! q.
Proof.
  unfold write_all. induction writes as [| [p c] writes IH]; intros files Hq.
  - reflexivity.
  - cbn [map fst] in Hq. apply not_elem_of_cons in Hq. destruct Hq as [Hne Hq].
    cbn [fold_left fst snd]. rewrite (IH _ Hq). now apply lookup_insert_ne.
Qed.

Lemma write_all_lookup (writes : list (Path * string)) (files : gmap Path string)
    (p : Path) (content : string) :
  NoDup (map fst writes) ->
  In (p, content) writes ->
  write_all writes files !! p = Some content.
Proof.
  revert files. induction writes as [| [p' c'] writes IH]; intros files Hnd Hin.
  - contradiction.
  - cbn [map fst] in Hnd. apply NoDup_cons in Hnd. destruct Hnd as [Hp' Hnd].
    unfold write_all. cbn [fold_left fst snd]. destruct Hin as [[= -> ->] | Hin].
    + fold (write_all writes (<[ p := content ]> files)).
      rewrite (write_all_other _ _ _ Hp'). apply lookup_insert_eq.
    + exact (IH _ Hnd Hin).
Qed.

Lemma writes_of_paths self (output_dir : Path) (vs : list TestVariant.t) (fns : list string) :
  length vs = length fns ->
  map fst (writes_of self output_dir vs fns) = map (fun fn => output_path output_dir fn) fns.
Proof.
  revert fns. induction vs as [| v vs IH]; intros [| fn fns] Hlen; try discriminate.
  - reflexivity.
  - cbn [combine map fst snd]. f_equal. apply IH. now injection Hlen.
Qed.

(** X10. After a run in which nothing failed and the output paths are
    distinct, the file of each variant holds the text generated for that
    variant. *)
Theorem generate_all_tests_contents self (output_dir : Path) (fns : list string) w0
    (variant : TestVariant.t) (filename : string) :
  mkdir_error output_dir = None ->
  Forall2 (fun v fn => filename_of self v = Ok fn) (TestConfig.variants (config self)) fns ->
  (forall files p content, write_error files p content = None) ->
  NoDup (map (fun fn => output_path output_dir fn) fns) ->
  In (variant, filename) (combine (TestConfig.variants (config self)) fns) ->
  disk (snd (gen_all self output_dir w0)) !! output_path output_dir filename
  = Some (test_content self variant).
Proof.
  intros Hmk Hfns Hwrite Hnd Hin. unfold generate_all_tests. rewrite Hmk.
  rewrite (generate_variants_success self output_dir Hwrite _ fns _ Hfns).
  cbn [snd disk]. apply write_all_lookup.
  - rewrite writes_of_paths; [ exact Hnd | ]. exact (Forall2_length _ _ _ Hfns).
  - apply in_map_iff. exists (variant, filename). split; [ reflexivity | exact Hin ].
Qed.

Lemma generate_variants_frame self (output_dir : Path) (q : Path) :
  forall vs w r w',
    gen_variants self output_dir vs w = (r, w') ->
    (forall v fn, In v vs -> filename_of self v = Ok fn -> output_path output_dir fn <> q) ->
    disk w' !! q = disk w !! q.
Proof.
  induction vs as [| v vs IH]; intros w r w' Hrun Hq; cbn [generate_variants] in Hrun.
  - now inversion Hrun; subst.
  - destruct (filename_of self v) as [fn | e] eqn:Hfn; [ | now inversion Hrun; subst ].
    assert (Hne : output_path output_dir fn <> q) by (apply (Hq v); [ now left | exact Hfn ]).
    unfold generate_test_file, write_file in Hrun.
    destruct (write_error (disk w) (output_path output_dir fn) (test_content self v))
      as [[e | e remains] |].
    + now inversion Hrun; subst.
    + inversion Hrun; subst. cbn [print disk]. now apply lookup_insert_ne.
    + rewrite (IH _ _ _ Hrun (fun u fu Hu => Hq u fu (or_intror Hu))).
      cbn [print disk]. now apply lookup_insert_ne.
Qed.

(** X11. Whatever the outcome of [generate_all_tests], a path that is not
    the output path of one of the variants holds what it held before. *)
Theorem generate_all_tests_frame self (output_dir : Path) (q : Path) w0 r w' :
  gen_all self output_dir w0 = (r, w') ->
  (forall v fn, In v (TestConfig.variants (config self)) ->
                filename_of self v = Ok fn -> output_path output_dir fn <> q) ->
  disk w' !! q = disk w0 !! q.
Proof.
  unfold generate_all_tests. intros Hrun Hq.
  destruct (mkdir_error output_dir); [ now inversion Hrun; subst | ].
  now rewrite (generate_variants_frame self output_dir q _ _ _ _ Hrun Hq).
Qed.

(** X12. When the file name of a variant cannot be formatted,
    [generate_all_tests] raises that error after the variants before it
    were generated, and prints no failure line for it: the world is as
    those variants left it. *)
Theorem generate_all_tests_format_error self (output_dir : Path)
    (before after : list TestVariant.t) (variant : TestVariant.t) (e : exn) w0 w1 :
  TestConfig.variants (config self) = before ++ variant :: after ->
  mkdir_error output_dir = None ->
  gen_variants self output_dir before
    (print ("Generating tests for: " +:+ TestConfig.name (config self)) w0) = (Ok tt, w1) ->
  filename_of self variant = Raise e ->
  gen_all self output_dir w0 = (Raise e, w1).
Proof.
  intros Hvs Hmk Hbefore Hname. unfold generate_all_tests. rewrite Hmk, Hvs.
  rewrite (generate_variants_app _ _ _ _ _ _ _ _ _ _ Hbefore).
  cbn [generate_variants]. now rewrite Hname.
Qed.

End Runs.

Lemma generate_all_tests_success_witness :
  TestGenerator.stdout
    (snd (TestGenerator.generate_all_tests
            (fun s => s) Examples.fs_joinpath Examples.format_default (fun _ => None)
            MoreExamples.writable Examples.generator "out" Examples.empty_world))
  = [ "Generating tests for: load";
      "  ✓ Generated: load-plain.slang";
      "  ✓ Generated: load-textured.slang";
      "  ✓ Generated: load-own.slang" ].
Proof.
  rewrite (generate_all_tests_success
             (fun s => s) Examples.fs_joinpath Examples.format_default (fun _ => None)
             MoreExamples.writable Examples.generator "out"
             [ "load-plain.slang"; "load-textured.slang"; "load-own.slang" ]
             Examples.empty_world).
  - reflexivity.
  - reflexivity.
  - repeat constructor.
  - reflexivity.
Defined.

Lemma generate_all_tests_contents_witness :
  TestGenerator.disk
    (snd (TestGenerator.generate_all_tests
            (fun s => s) Examples.fs_joinpath Examples.format_default (fun _ => None)
            MoreExamples.writable Examples.generator "out" Examples.empty_world))
    !! "out/load-textured.slang"
  = Some (TestGenerator.test_content Examples.generator Examples.textured).
Proof.
  apply (generate_all_tests_contents
           (fun s => s) Examples.fs_joinpath Examples.format_default (fun _ => None)
           MoreExamples.writable Examples.generator "out"
           [ "load-plain.slang"; "load-textured.slang"; "load-own.slang" ]
           Examples.empty_world Examples.textured "load-textured.slang").
  - reflexivity.
  - repeat constructor.
  - reflexivity.
  - repeat first
      [ apply NoDup_nil_2
      | apply NoDup_cons_2;
        [ intros Hin; apply list_elem_of_In in Hin; simpl in Hin; intuition discriminate | ] ].
  - right. left. reflexivity.
Defined.

Lemma generate_all_tests_frame_witness :
  TestGenerator.disk
    (snd (TestGenerator.generate_all_tests
            (fun s => s) Examples.fs_joinpath Examples.format_default (fun _ => None)
            Examples.read_only_textured Examples.generator "out"
            {| TestGenerator.disk := {[ "out/notes.txt" := "keep" ]};
               TestGenerator.stdout := [] |}))
    !! "out/notes.txt"
  = Some "keep".
Proof.
  rewrite (generate_all_tests_frame
             (fun s => s) Examples.fs_joinpath Examples.format_default (fun _ => None)
             Examples.read_only_textured Examples.generator "out" "out/notes.txt"
             _ _ _ (surjective_pairing _)).
  - reflexivity.
  - intros v fn Hv Hfn. simpl in Hv.
    destruct Hv as [<- | [<- | [<- | []]]]; injection Hfn as <-; discriminate.
Defined.

Lemma generate_all_tests_format_error_witness :
  let run :=
    TestGenerator.generate_all_tests
      (fun s => s) Examples.fs_joinpath MoreExamples.format_but_own (fun _ => None)
      MoreExamples.writable Examples.generator "out" Examples.empty_world in
  fst run = Raise (KeyError "variant")
  /\ TestGenerator.stdout (snd run) =
       [ "Generating tests for: load";
         "  ✓ Generated: load-plain.slang";
         "  ✓ Generated: load-textured.slang" ].
Proof.
  intros run. subst run.
  rewrite (generate_all_tests_format_error
             (fun s => s) Examples.fs_joinpath MoreExamples.format_but_own (fun _ => None)
             MoreExamples.writable Examples.generator "out"
             [ Examples.plain; Examples.textured ] [] Examples.own_shader
             (KeyError "variant") Examples.empty_world
             {| TestGenerator.disk :=
                  <[ "out/load-textured.slang" :=
                       TestGenerator.test_content Examples.generator Examples.textured ]>
                    (<[ "out/load-plain.slang" :=
                          TestGenerator.test_content Examples.generator Examples.plain ]> ∅);
                TestGenerator.stdout :=
                  [ "Generating tests for: load";
                    "  ✓ Generated: load-plain.slang";
                    "  ✓ Generated: load-textured.slang" ] |}
             eq_refl eq_refl eq_refl eq_refl).
  split; reflexivity.
Defined.

(** ** Validation and [main] *)

Section CommandLineProperties.

Context {Path : Type} `{Countable Path}.
Variable path_of_str : string -> Path.
Variable is_absolute : Path -> bool.
Variable parent : Path -> Path.
Variable joinpath : Path -> Path -> Path.
Variable path_exists : Path -> result bool.
Variable read_text : Path -> result string.
Variable format_pattern : string -> string -> string -> result string.
Variable mkdir_error : Path -> option exn.
Variable write_error : gmap Path string -> Path -> string -> option write_failure.
Variable path_str : Path -> string.
Variable load_yaml : Path -> result TestConfig.data.
Variable resolve_parts : Path -> list string.
Variable path_of_parts : list string -> Path.
Variable cwd : Path.

Implicit Types (w : @TestGenerator.World Path _ _) (args : @Args Path).

Import TestGenerator.

Local Abbreviation validate :=
  (validate_config path_of_str is_absolute parent joinpath path_exists path_str load_yaml).
Local Abbreviation validate_body :=
  (validate_try path_of_str is_absolute parent joinpath path_exists path_str load_yaml).
Local Abbreviation probe :=
  (validate_shader_path path_of_str is_absolute parent joinpath path_exists path_str).
Local Abbreviation load := (load_config load_yaml).
Local Abbreviation find_root :=
  (find_slang_root path_of_str joinpath path_exists resolve_parts path_of_parts cwd).
Local Abbreviation find_from :=
  (find_slang_root_from path_of_str joinpath path_exists path_of_parts cwd).
Local Abbreviation run_main :=
  (main path_of_str is_absolute parent joinpath path_exists read_text format_pattern
        mkdir_error write_error path_str load_yaml resolve_parts path_of_parts cwd).
Local Abbreviation run_generate :=
  (generate path_of_str is_absolute parent joinpath path_exists read_text format_pattern
            mkdir_error write_error load_yaml resolve_parts path_of_parts cwd).
Local Abbreviation make_generator :=
  (init path_of_str is_absolute parent joinpath path_exists read_text).

Lemma io_bind_disk {A B} (m : IO A) (k : A -> IO B) :
  (forall w, disk (snd (m w)) = disk w) ->
  (forall a w, disk (snd (k a w)) = disk w) ->
  forall w, disk (snd (io_bind m k w)) = disk w.
Proof.
  intros Hm Hk w. unfold io_bind. specialize (Hm w).
  destruct (m w) as [[a | e] w']; cbn [snd] in *; [ | exact Hm ].
  now rewrite Hk.
Qed.

Lemma io_lift_disk {A} (r : result A) w : disk (snd (io_lift (Path := Path) r w)) = disk w.
Proof. reflexivity. Qed.

Lemma io_print_disk (line : string) w : disk (snd (io_print line w)) = disk w.
Proof. reflexivity. Qed.

Lemma validate_shader_path_disk (config_path : Path) (shader_template : string) w :
  disk (snd (probe config_path shader_template w)) = disk w.
Proof.
  revert w. unfold validate_shader_path.
  apply io_bind_disk; [ apply io_lift_disk | ]. intros [|]; [ apply io_print_disk | ].
  apply io_bind_disk; [ apply io_lift_disk | ]. intros [|]; [ apply io_print_disk | ].
  apply io_bind_disk; [ apply io_lift_disk | ]. intros [|]; apply io_print_disk.
Qed.

Lemma validate_try_disk (config_path : Path) w :
  disk (snd (validate_body config_path w)) = disk w.
Proof.
  revert w. unfold validate_try.
  apply io_bind_disk; [ apply io_lift_disk | ]. intros config.
  do 3 (apply io_bind_disk; [ apply io_print_disk | ]; intros _).
  apply io_bind_disk; [ | reflexivity ].
  destruct (_ && _); [ apply validate_shader_path_disk | apply io_print_disk ].
Qed.

(** Validation writes no file. *)
Lemma validate_config_disk (config_path : Path) w :
  disk (snd (validate config_path w)) = disk w.
Proof.
  unfold validate_config.
  pose proof (validate_try_disk config_path
                (print ("Validating configuration: " +:+ path_str config_path) w)) as Hd.
  destruct (validate_body _ _) as [[b | e] w']; cbn [snd] in *; exact Hd.
Qed.

(** X13. [validate_config] returns [False], after printing the error,
    when the document cannot be loaded, and it returns [True] only for a
    document that loads. *)
Theorem validate_config_load (config_path : Path) w :
  (forall e, load config_path = Raise e ->
     validate config_path w =
       (false,
        print ("  ✗ Validation failed: " +:+ exn_str e)
              (print ("Validating configuration: " +:+ path_str config_path) w)))
  /\ (fst (validate config_path w) = true -> exists config, load config_path = Ok config).
Proof.
  unfold validate_config, validate_try. split.
  - intros e He. rewrite He. reflexivity.
  - destruct (load config_path) as [config | e]; [ eauto | discriminate ].
Qed.

(** X14. For a shader template that, stripped, has a line feed or at least
    256 characters, [validate_config] looks at no path: it reports inline
    code and returns [True] as soon as the document loads. *)
Theorem validate_config_inline (config_path : Path) (config : TestConfig.t) w :
  load config_path = Ok config ->
  contains nl (strip (TestConfig.shader_template config)) = true
  \/ (256 <= len (strip (TestConfig.shader_template config)))%nat ->
  validate config_path w =
    (true,
     {| disk := disk w;
        stdout := stdout w
                  ++ [ "Validating configuration: " +:+ path_str config_path;
                       "  ✓ Configuration loaded successfully";
                       "  ✓ Test name: " +:+ TestConfig.name config;
                       "  ✓ Variants: "
                         +:+ str_of_int (Z.of_nat (length (TestConfig.variants config)));
                       "  ℹ Shader template is inline code" ] |}).
Proof.
  intros Hload Hinline.
  assert (Hguard : negb (contains nl (strip (TestConfig.shader_template config)))
                   && (len (strip (TestConfig.shader_template config)) <? 256)%nat
                   = false).
  { destruct Hinline as [Hnl | Hlen].
    - now rewrite Hnl.
    - apply Nat.ltb_ge in Hlen. rewrite Hlen. apply andb_false_r. }
  unfold validate_config, validate_try, io_bind, io_lift, io_print, io_ret.
  rewrite Hload, Hguard. unfold print. cbn [disk stdout].
  now rewrite <- !app_assoc.
Qed.

(** X15. [main] writes no file when validation fails or when only
    validation is asked for, and then exits with status 1 or 0. *)
Theorem main_without_generation args w :
  let run :=
    main path_of_str is_absolute parent joinpath path_exists read_text format_pattern
         mkdir_error write_error path_str load_yaml resolve_parts path_of_parts cwd
         args w in
  let valid :=
    fst (validate_config path_of_str is_absolute parent joinpath path_exists path_str
           load_yaml (args_config args) w) in
  valid = false \/ args_validate_only args = true ->
  disk (snd run) = disk w /\ fst run = Exit (if valid then 0 else 1).
Proof.
  intros run valid Hcase. subst run valid. unfold main.
  pose proof (validate_config_disk (args_config args) w) as Hd.
  destruct (validate (args_config args) w) as [valid w'] eqn:Ev. cbn [fst snd] in *.
  destruct valid; cbn [negb].
  - destruct Hcase as [Hf | Hv]; [ discriminate | ]. rewrite Hv. split; [ exact Hd | reflexivity ].
  - split; [ exact Hd | reflexivity ].
Qed.

(** X16. When the document sets [output_dir], [--output-dir] is ignored:
    [main] does the same for every value of it. *)
Theorem main_output_dir_from_document args (config : TestConfig.t) (d : Path) w :
  load (args_config args) = Ok config ->
  truthy_opt (TestConfig.output_dir config) = true ->
  run_main (with_output_dir d args) w = run_main args w.
Proof.
  intros Hload Hdir. unfold main, with_output_dir. cbn [args_config args_validate_only].
  destruct (validate (args_config args) w) as [valid w'].
  destruct (negb valid); [ reflexivity | ].
  destruct (args_validate_only args); [ reflexivity | ].
  unfold generate, io_bind, io_lift. cbn [args_config args_shader args_output_dir].
  rewrite Hload, Hdir. reflexivity.
Qed.

(** X17. [find_slang_root] returns the nearest ancestor of the resolved
    start path (the path itself included, the file system root excluded)
    in which [.git] exists, and the working directory when there is none. *)
Theorem find_slang_root_nearest (start_path : Path) (below up : list string) :
  resolve_parts start_path = below ++ up ->
  (forall inner c rest, below = inner ++ c :: rest ->
     path_exists (joinpath (path_of_parts (c :: rest ++ up)) (path_of_str ".git")) = Ok false) ->
  (up <> [] ->
   path_exists (joinpath (path_of_parts up) (path_of_str ".git")) = Ok true ->
   find_root start_path = Ok (path_of_parts up))
  /\ (up = [] -> find_root start_path = Ok cwd).
Proof.
  intros Hparts Hbelow. unfold find_slang_root. rewrite Hparts. clear Hparts.
  assert (Hskip : find_from (below ++ up) = find_from up).
  { induction below as [| c below IH]; [ reflexivity | ].
    cbn [app find_slang_root_from].
    rewrite (Hbelow [] c below eq_refl). cbn [bind].
    apply IH. intros inner c' rest ->. exact (Hbelow (c :: inner) c' rest eq_refl). }
  rewrite Hskip. split.
  - intros Hne Hgit. destruct up as [| c up]; [ contradiction | ].
    cbn [find_slang_root_from]. rewrite Hgit. reflexivity.
  - intros ->. reflexivity.
Qed.

(** X18. A document that [validate_config] accepts can still fail to
    generate: for a template with a line feed that is not an absolute path,
    an error raised by the probe next to the configuration file does not
    reach [validate_config] but is raised by the generator's constructor. *)
Theorem validate_accepts_init_raises (config_path : Path) (config : TestConfig.t)
    (e : exn) w :
  load config_path = Ok config ->
  contains nl (strip (TestConfig.shader_template config)) = true ->
  is_absolute (path_of_str (TestConfig.shader_template config)) = false ->
  path_exists (joinpath (parent config_path)
                        (path_of_str (TestConfig.shader_template config))) = Raise e ->
  fst (validate config_path w) = true
  /\ make_generator config config_path None = Raise e.
Proof.
  intros Hload Hnl Habs Hprobe. split.
  - unfold validate_config, validate_try, io_bind, io_lift, io_print, io_ret.
    rewrite Hload, Hnl. reflexivity.
  - unfold init, _load_shader_template. rewrite Habs. cbn [bind]. rewrite Hprobe.
    reflexivity.
Qed.

End CommandLineProperties.

Lemma validate_config_load_witness :
  fst (validate_config (fun s => s) Examples.fs_is_absolute Examples.fs_parent
         Examples.fs_joinpath MoreExamples.repo_exists (fun p => p) MoreExamples.load_yaml
         "/repo/tests/missing.yaml" Examples.empty_world) = false.
Proof.
  rewrite (proj1 (validate_config_load
                    (fun s => s) Examples.fs_is_absolute Examples.fs_parent
                    Examples.fs_joinpath MoreExamples.repo_exists (fun p => p)
                    MoreExamples.load_yaml "/repo/tests/missing.yaml" Examples.empty_world)
                 (OSError "No such file or directory") eq_refl).
  reflexivity.
Defined.

Lemma validate_config_inline_witness :
  validate_config (fun s => s) Examples.fs_is_absolute Examples.fs_parent
    Examples.fs_joinpath MoreExamples.probe_fails (fun p => p) MoreExamples.load_yaml
    "/repo/tests/inline.yaml" Examples.empty_world
  = (true,
     {| TestGenerator.disk := ∅;
        TestGenerator.stdout :=
          [ "Validating configuration: /repo/tests/inline.yaml";
            "  ✓ Configuration loaded successfully";
            "  ✓ Test name: inline";
            "  ✓ Variants: 1";
            "  ℹ Shader template is inline code" ] |}).
Proof.
  rewrite (validate_config_inline
             (fun s => s) Examples.fs_is_absolute Examples.fs_parent
             Examples.fs_joinpath MoreExamples.probe_fails (fun p => p)
             MoreExamples.load_yaml "/repo/tests/inline.yaml" MoreExamples.inline_config
             Examples.empty_world eq_refl (or_introl eq_refl)).
  reflexivity.
Defined.

Lemma main_without_generation_witness :
  let run :=
    main (fun s => s) Examples.fs_is_absolute Examples.fs_parent Examples.fs_joinpath
         MoreExamples.repo_exists Examples.fs_read_text Examples.format_default
         (fun _ => None) MoreExamples.writable (fun p => p) MoreExamples.load_yaml
         MoreExamples.resolve_parts MoreExamples.path_of_parts "/work"
         (MoreExamples.args_for "/repo/tests/load.yaml" true) Examples.empty_world in
  TestGenerator.disk (snd run) = ∅ /\ fst run = Exit 0.
Proof.
  intros run.
  exact (main_without_generation
           (fun s => s) Examples.fs_is_absolute Examples.fs_parent Examples.fs_joinpath
           MoreExamples.repo_exists Examples.fs_read_text Examples.format_default
           (fun _ => None) MoreExamples.writable (fun p => p) MoreExamples.load_yaml
           MoreExamples.resolve_parts MoreExamples.path_of_parts "/work"
           (MoreExamples.args_for "/repo/tests/load.yaml" true) Examples.empty_world
           (or_intror eq_refl)).
Defined.

Lemma main_output_dir_from_document_witness :
  main (fun s => s) Examples.fs_is_absolute Examples.fs_parent Examples.fs_joinpath
       MoreExamples.repo_exists Examples.fs_read_text Examples.format_default
       (fun _ => None) MoreExamples.writable (fun p => p) MoreExamples.load_yaml
       MoreExamples.resolve_parts MoreExamples.path_of_parts "/work"
       (with_output_dir "elsewhere" (MoreExamples.args_for "/repo/tests/inline.yaml" false))
       Examples.empty_world
  = main (fun s => s) Examples.fs_is_absolute Examples.fs_parent Examples.fs_joinpath
         MoreExamples.repo_exists Examples.fs_read_text Examples.format_default
         (fun _ => None) MoreExamples.writable (fun p => p) MoreExamples.load_yaml
         MoreExamples.resolve_parts MoreExamples.path_of_parts "/work"
         (MoreExamples.args_for "/repo/tests/inline.yaml" false) Examples.empty_world.
Proof.
  exact (main_output_dir_from_document
           (fun s => s) Examples.fs_is_absolute Examples.fs_parent Examples.fs_joinpath
           MoreExamples.repo_exists Examples.fs_read_text Examples.format_default
           (fun _ => None) MoreExamples.writable (fun p => p) MoreExamples.load_yaml
           MoreExamples.resolve_parts MoreExamples.path_of_parts "/work"
           (MoreExamples.args_for "/repo/tests/inline.yaml" false)
           MoreExamples.inline_config "elsewhere" Examples.empty_world eq_refl eq_refl).
Defined.

Lemma find_slang_root_nearest_witness :
  find_slang_root (fun s => s) Examples.fs_joinpath MoreExamples.repo_exists
    MoreExamples.resolve_parts MoreExamples.path_of_parts "/work" "/repo/tests/load.yaml"
  = Ok "/repo".
Proof.
  apply (proj1 (find_slang_root_nearest
                  (fun s => s) Examples.fs_joinpath MoreExamples.repo_exists
                  MoreExamples.resolve_parts MoreExamples.path_of_parts "/work"
                  "/repo/tests/load.yaml" [ "load.yaml"; "tests" ] [ "repo" ] eq_refl
                  ltac:(intros [| a [| b [| c inner ] ] ] x rest Heq;
                        injection Heq as; subst; try discriminate; reflexivity))).
  - discriminate.
  - reflexivity.
Defined.

Lemma validate_accepts_init_raises_witness :
  fst (validate_config (fun s => s) Examples.fs_is_absolute Examples.fs_parent
         Examples.fs_joinpath MoreExamples.probe_fails (fun p => p) MoreExamples.load_yaml
         "/repo/tests/inline.yaml" Examples.empty_world) = true
  /\ TestGenerator.init (fun s => s) Examples.fs_is_absolute Examples.fs_parent
       Examples.fs_joinpath MoreExamples.probe_fails Examples.fs_read_text
       MoreExamples.inline_config "/repo/tests/inline.yaml" None
     = Raise (OSError "File name too long").
Proof.
  exact (validate_accepts_init_raises
           (fun s => s) Examples.fs_is_absolute Examples.fs_parent Examples.fs_joinpath
           MoreExamples.probe_fails Examples.fs_read_text (fun p => p)
           MoreExamples.load_yaml "/repo/tests/inline.yaml" MoreExamples.inline_config
           (OSError "File name too long") Examples.empty_world
           eq_refl eq_refl eq_refl eq_refl).
Defined.

(** ** The last line of the header *)

Section HeaderLastLine.

Context {Path : Type}.
Implicit Types (self : @TestGenerator.t Path) (variant : TestVariant.t).

Import TestGenerator.

(** X19. When no element of the header holds a line feed, the header text
    split at line feeds ends with a non-empty line and an empty string:
    its only final line feed comes right after a non-empty line, and the
    shader appended to the header starts on the line after it. *)
Theorem generate_header_last_line self variant :
  Forall (fun l => no_newline l = true) (header_lines self variant) ->
  exists ls last,
    split_nl (_generate_header self variant) = ls ++ [ last; "" ]
    /\ truthy last = true.
Proof.
  intros Hlines.
  destruct (header_lines_end self variant) as (ls' & Hls' & (ls & last & -> & Hlast)).
  exists ls, last. split; [ | exact Hlast ].
  unfold _generate_header. rewrite split_nl_join; [ | | exact Hlines ].
  - rewrite Hls'. now rewrite <- app_assoc.
  - rewrite Hls'. destruct ls; discriminate.
Qed.

End HeaderLastLine.

Lemma generate_header_last_line_witness :
  exists ls last,
    split_nl (TestGenerator._generate_header Examples.generator Examples.textured)
    = ls ++ [ last; "" ]
    /\ truthy last = true.
Proof.
  apply generate_header_last_line. vm_compute. repeat constructor.
Defined.
